(** * The gateway's traffic analysis: counters, windows and the registry

    A shallow embedding of package [model] (type [point], type [Recently],
    type [Analysis] and their methods) together with the properties of the
    analysis engine that the specification states about it.

    Conventions of the embedding.
    - An [int64] (and a [time.Duration], which is an [int64] count of
      nanoseconds) is a [Z]; every arithmetic operation of the source is
      followed by the two's complement wrap-around [wrap64].  Go's [/] on
      integers truncates toward zero ([Z.quot]) and panics on a zero divisor.
    - [int] is taken to be 64 bits wide, as on the amd64 and arm64 targets,
      so that the conversions [int(x)] of an [int64] keep the value.
    - A [*point] stored in a map or in a [Recently] is owned by that one slot:
      [newPoint] and [&point{}] allocate, and no pointer is ever stored twice.
      Points are therefore kept by value, and a method that mutates through a
      pointer returns the new value of every object it writes.
    - A run-time panic is a result of its own, which carries the state at the
      moment of the panic.
    - The registry lock serialises the methods of [Analysis]; one call is one
      step of the model. *)

From stdpp Require Import base option gmap strings list fin_maps.
From Stdlib Require Import ZArith Lia.

Local Open Scope Z_scope.

(** ** Machine integers *)

Definition int64_min : Z := - 2 ^ 63.
Definition int64_max : Z := 2 ^ 63 - 1.

Definition int64_ok (x : Z) : Prop := int64_min <= x <= int64_max.

(** Two's complement reduction of a mathematical integer to an [int64]. *)
Definition wrap64 (x : Z) : Z := (x + 2 ^ 63) mod 2 ^ 64 - 2 ^ 63.

Definition sub64 (x y : Z) : Z := wrap64 (x - y).

(** [x / y] on [int64]: [None] is the run-time panic "integer divide by
    zero". *)
Definition div64 (x y : Z) : option Z :=
  if y =? 0 then None else Some (wrap64 (Z.quot x y)).

(** [int(x)] for an [int64] [x]. *)
Definition int_of_int64 (x : Z) : Z := x.

(** Package [time]. *)
Module time.
Definition Millisecond : Z := 1000000.
Definition Second : Z := 1000000000.

(** [time.NewTicker(d)] panics when [d] is not positive; [false] is that
    panic. *)
Definition NewTicker_ok (d : Z) : bool := 0 <? d.
End time.

(** Package [github.com/fagongzi/util/atomic], type [Int64]: the value held,
    and what each method stores. *)
Module atomic.
Definition Incr (v : Z) : Z := wrap64 (v + 1).
Definition Add (v d : Z) : Z := wrap64 (v + d).
End atomic.

(** ** Results of a call *)

(** A call on a state [S] either returns a value and leaves a state, or
    panics in a state. *)
Inductive Res (S A : Type) : Type :=
| Ret (v : A) (s : S)
| Panic (s : S).
Arguments Ret {S A} v s.
Arguments Panic {S A} s.

Definition state_of {S A} (r : Res S A) : S :=
  match r with Ret _ s => s | Panic s => s end.

Definition returned {S A} (r : Res S A) : bool :=
  match r with Ret _ _ => true | Panic _ => false end.

Definition M (S A : Type) : Type := S -> Res S A.

Definition ret {S A} (v : A) : M S A := fun s => Ret v s.

Definition bind {S A B} (c : M S A) (k : A -> M S B) : M S B :=
  fun s => match c s with
           | Ret v s' => k v s'
           | Panic s' => Panic s'
           end.

Definition panic {S A} : M S A := fun s => Panic s.
Definition gets {S A} (f : S -> A) : M S A := fun s => Ret (f s) s.
Definition modify {S} (f : S -> S) : M S unit := fun s => Ret tt (f s).

Notation "'let!' x ':=' c 'in' k" := (bind c (fun x => k))
  (at level 10, x name, c at level 100, k at level 200,
   format "'[v' 'let!'  x  ':='  c  'in' '/' k ']'").
Notation "c '>>' k" := (bind c (fun _ => k))
  (at level 100, k at level 200, right associativity).

(** ** Counter points *)

Module point.

Record t : Type := mk {
  requests : Z;
  rejects : Z;
  failure : Z;
  successed : Z;
  continuousFailure : Z;
  costs : Z;
  max : Z;
  min : Z
}.

Definition set_requests (v : Z) (p : t) : t :=
  mk v (rejects p) (failure p) (successed p) (continuousFailure p)
     (costs p) (max p) (min p).
Definition set_rejects (v : Z) (p : t) : t :=
  mk (requests p) v (failure p) (successed p) (continuousFailure p)
     (costs p) (max p) (min p).
Definition set_failure (v : Z) (p : t) : t :=
  mk (requests p) (rejects p) v (successed p) (continuousFailure p)
     (costs p) (max p) (min p).
Definition set_successed (v : Z) (p : t) : t :=
  mk (requests p) (rejects p) (failure p) v (continuousFailure p)
     (costs p) (max p) (min p).
Definition set_continuousFailure (v : Z) (p : t) : t :=
  mk (requests p) (rejects p) (failure p) (successed p) v
     (costs p) (max p) (min p).
Definition set_costs (v : Z) (p : t) : t :=
  mk (requests p) (rejects p) (failure p) (successed p)
     (continuousFailure p) v (max p) (min p).
Definition set_max (v : Z) (p : t) : t :=
  mk (requests p) (rejects p) (failure p) (successed p)
     (continuousFailure p) (costs p) v (min p).
Definition set_min (v : Z) (p : t) : t :=
  mk (requests p) (rejects p) (failure p) (successed p)
     (continuousFailure p) (costs p) (max p) v.

(** [newPoint()] and [&point{}]: every counter is zero. *)
Definition newPoint : t := mk 0 0 0 0 0 0 0 0.

(** [func (p *point) dump(target *point)], for [target] distinct from [p]:
    the pair is the receiver [p] and [target] after the call. *)
Definition dump (p target : t) : t * t :=
  let target := set_requests (requests p) target in
  let target := set_rejects (rejects p) target in
  let target := set_failure (failure p) target in
  let target := set_successed (successed p) target in
  let target := set_max (max p) target in
  let target := set_min (min p) target in
  let target := set_costs (costs p) target in
  let p := set_min 0 p in
  let p := set_max 0 p in
  (p, target).

End point.

(** ** Windows *)

Module Recently.

Record t : Type := mk {
  period : Z;
  prev : point.t;
  current : point.t;
  dumpCurr : bool;
  qps : Z;
  requests : Z;
  successed : Z;
  failure : Z;
  rejects : Z;
  max : Z;
  min : Z;
  avg : Z
}.

Definition set_prev (v : point.t) (r : t) : t :=
  mk (period r) v (current r) (dumpCurr r) (qps r) (requests r)
     (successed r) (failure r) (rejects r) (max r) (min r) (avg r).
Definition set_current (v : point.t) (r : t) : t :=
  mk (period r) (prev r) v (dumpCurr r) (qps r) (requests r)
     (successed r) (failure r) (rejects r) (max r) (min r) (avg r).
Definition set_dumpCurr (v : bool) (r : t) : t :=
  mk (period r) (prev r) (current r) v (qps r) (requests r)
     (successed r) (failure r) (rejects r) (max r) (min r) (avg r).
Definition set_qps (v : Z) (r : t) : t :=
  mk (period r) (prev r) (current r) (dumpCurr r) v (requests r)
     (successed r) (failure r) (rejects r) (max r) (min r) (avg r).
Definition set_requests (v : Z) (r : t) : t :=
  mk (period r) (prev r) (current r) (dumpCurr r) (qps r) v
     (successed r) (failure r) (rejects r) (max r) (min r) (avg r).
Definition set_successed (v : Z) (r : t) : t :=
  mk (period r) (prev r) (current r) (dumpCurr r) (qps r) (requests r)
     v (failure r) (rejects r) (max r) (min r) (avg r).
Definition set_failure (v : Z) (r : t) : t :=
  mk (period r) (prev r) (current r) (dumpCurr r) (qps r) (requests r)
     (successed r) v (rejects r) (max r) (min r) (avg r).
Definition set_rejects (v : Z) (r : t) : t :=
  mk (period r) (prev r) (current r) (dumpCurr r) (qps r) (requests r)
     (successed r) (failure r) v (max r) (min r) (avg r).
Definition set_max (v : Z) (r : t) : t :=
  mk (period r) (prev r) (current r) (dumpCurr r) (qps r) (requests r)
     (successed r) (failure r) (rejects r) v (min r) (avg r).
Definition set_min (v : Z) (r : t) : t :=
  mk (period r) (prev r) (current r) (dumpCurr r) (qps r) (requests r)
     (successed r) (failure r) (rejects r) (max r) v (avg r).
Definition set_avg (v : Z) (r : t) : t :=
  mk (period r) (prev r) (current r) (dumpCurr r) (qps r) (requests r)
     (successed r) (failure r) (rejects r) (max r) (min r) v.

(** [newRecently(period)]: two fresh points, every other field zero. *)
Definition newRecently (period : Z) : t :=
  mk period point.newPoint point.newPoint false 0 0 0 0 0 0 0 0.

(** The difference of a cumulative counter between the two snapshots,
    with a negative difference replaced by 0. *)
Definition delta (cur prv : Z) : Z :=
  let d := sub64 cur prv in if d <? 0 then 0 else d.

(** A latency extreme in nanoseconds, as milliseconds. *)
Definition to_ms (v : Z) : Z :=
  if v <? 0 then 0 else Z.quot (Z.quot v 1000) 1000.

(** [int64(r.period/time.Second)] *)
Definition whole_seconds (r : t) : Z := Z.quot (period r) time.Second.

(** [func (r *Recently) calc()].  The fields up to [avg] are written
    before the division that computes [qps]; when that division panics
    they stay written. *)
Definition calc : M t unit := fun r =>
  let r := set_requests
             (delta (point.requests (current r)) (point.requests (prev r))) r in
  let r := set_successed
             (delta (point.successed (current r)) (point.successed (prev r))) r in
  let r := set_failure
             (delta (point.failure (current r)) (point.failure (prev r))) r in
  let r := set_rejects
             (delta (point.rejects (current r)) (point.rejects (prev r))) r in
  let r := set_max (to_ms (point.max (current r))) r in
  let r := set_min (to_ms (point.min (current r))) r in
  let costs := sub64 (point.costs (current r)) (point.costs (prev r)) in
  let r := if requests r =? 0 then set_avg 0 r
           else set_avg (Z.quot (Z.quot (Z.quot costs 1000) 1000) (requests r)) r in
  let quotient :=
    if successed r >? requests r
    then div64 (requests r) (whole_seconds r)
    else div64 (successed r) (whole_seconds r) in
  match quotient with
  | Some q => Ret tt (set_qps (int_of_int64 q) r)
  | None => Panic r
  end.

(** [func (r *Recently) record(p *point)]: the state is the window
    together with the live point [p]. *)
Definition record : M (t * point.t) unit := fun '(r, p) =>
  let step :=
    if dumpCurr r then
      let '(p, tgt) := point.dump p (current r) in
      match calc (set_current tgt r) with
      | Ret _ r => Ret tt (r, p)
      | Panic r => Panic (r, p)
      end
    else
      let '(p, tgt) := point.dump p (prev r) in
      Ret tt (set_prev tgt r, p) in
  match step with
  | Ret _ (r, p) => Ret tt (set_dumpCurr (negb (dumpCurr r)) r, p)
  | Panic s => Panic s
  end.

End Recently.

(** ** The registry *)

Module Analysis.

(** [taskRunner] is the list of the background loops launched through
    [RunCancelableTask], each named by the key and the interval its
    closure captured. *)
Record t : Type := mk {
  taskRunner : list (string * Z);
  points : gmap string point.t;
  recentlyPoints : gmap string (gmap Z Recently.t)
}.

Definition set_taskRunner (v : list (string * Z)) (a : t) : t :=
  mk v (points a) (recentlyPoints a).
Definition set_points (v : gmap string point.t) (a : t) : t :=
  mk (taskRunner a) v (recentlyPoints a).
Definition set_recentlyPoints (v : gmap string (gmap Z Recently.t)) (a : t) : t :=
  mk (taskRunner a) (points a) v.

(** [NewAnalysis(taskRunner)], for a runner with no task yet. *)
Definition NewAnalysis : t := mk [] ∅ ∅.

(** [a.recentlyPoints[key][interval]], when both lookups succeed. *)
Definition window (key : string) (interval : Z) (a : t) : option Recently.t :=
  match recentlyPoints a !! key with
  | Some points => points !! interval
  | None => None
  end.

(** [a.recentlyPoints[key][interval] = recently], for a [key] whose inner
    map exists; the assignment panics on a nil inner map. *)
Definition set_window (key : string) (interval : Z) (recently : Recently.t)
  : M t unit := fun a =>
  match recentlyPoints a !! key with
  | Some points =>
      Ret tt (set_recentlyPoints
                (<[key := <[interval := recently]> points]> (recentlyPoints a)) a)
  | None => Panic a
  end.

(** [time.NewTicker(interval)] *)
Definition NewTicker (interval : Z) : M t unit :=
  if time.NewTicker_ok interval then ret tt else panic.

(** [a.taskRunner.RunCancelableTask(func ...)], on a runner that has not
    been stopped: the loop is launched. *)
Definition RunCancelableTask (key : string) (interval : Z) : M t unit :=
  modify (fun a => set_taskRunner (taskRunner a ++ [(key, interval)]) a).

(** [log.Infof(...)] writes a line and touches nothing of the registry. *)
Definition log_Infof : M t unit := ret tt.

(** [func (a *Analysis) AddRecentCount(key string, interval time.Duration)] *)
Definition AddRecentCount (key : string) (interval : Z) : M t unit :=
  if interval =? 0 then ret tt
  else
    let! p := gets (fun a => points a !! key) in
    (if p is Some _ then ret tt
     else modify (fun a => set_points (<[key := point.newPoint]> (points a)) a)) >>
    let! m := gets (fun a => recentlyPoints a !! key) in
    (if m is Some _ then ret tt
     else modify (fun a => set_recentlyPoints (<[key := ∅]> (recentlyPoints a)) a)) >>
    let! w := gets (window key interval) in
    if w is Some _ then log_Infof
    else
      let recently := Recently.newRecently interval in
      set_window key interval recently >>
      NewTicker interval >>
      RunCancelableTask key interval >>
      log_Infof.

(** The body of [case <-timer.C] in the loop launched for [key] and
    [interval].  [recently] is the window that [AddRecentCount] stored at
    [a.recentlyPoints[key][interval]]: the slot is never assigned again,
    so the loop finds its window there. *)
Definition tick (key : string) (interval : Z) : M t unit := fun a =>
  match points a !! key, recentlyPoints a !! key with
  | Some p, Some windows =>
      match windows !! interval with
      | Some recently =>
          let store '(r, p) :=
            set_recentlyPoints
              (<[key := <[interval := r]> windows]> (recentlyPoints a))
              (set_points (<[key := p]> (points a)) a) in
          match Recently.record (recently, p) with
          | Ret _ s => Ret tt (store s)
          | Panic s => Panic (store s)
          end
      | None => Ret tt a
      end
  | _, _ => Ret tt a
  end.

(** The lookup shared by the readers of a window: 0 when the key or the
    interval has no window. *)
Definition read_window (server : string) (interval : Z)
           (field : Recently.t -> Z) : M t Z :=
  let! points := gets (fun a => recentlyPoints a !! server) in
  match points with
  | None => ret 0
  | Some points =>
      match points !! interval with
      | None => ret 0
      | Some point => ret (int_of_int64 (field point))
      end
  end.

Definition GetRecentlyRequestCount (server : string) (interval : Z) : M t Z :=
  read_window server interval Recently.requests.
Definition GetRecentlyMax (server : string) (interval : Z) : M t Z :=
  read_window server interval Recently.max.
Definition GetRecentlyMin (server : string) (interval : Z) : M t Z :=
  read_window server interval Recently.min.
Definition GetRecentlyAvg (server : string) (interval : Z) : M t Z :=
  read_window server interval Recently.avg.
Definition GetQPS (server : string) (interval : Z) : M t Z :=
  read_window server interval Recently.qps.
Definition GetRecentlyRejectCount (server : string) (interval : Z) : M t Z :=
  read_window server interval Recently.rejects.
Definition GetRecentlyRequestSuccessedCount (server : string) (interval : Z) : M t Z :=
  read_window server interval Recently.successed.
Definition GetRecentlyRequestFailureCount (server : string) (interval : Z) : M t Z :=
  read_window server interval Recently.failure.

(** [func (a *Analysis) GetContinuousFailureCount(server string) int] *)
Definition GetContinuousFailureCount (server : string) : M t Z :=
  let! p := gets (fun a => points a !! server) in
  match p with
  | None => ret 0
  | Some p => ret (int_of_int64 (point.continuousFailure p))
  end.

(** [p := a.points[key]] followed by method calls on the fields of [p].
    For a key that is not in the map [p] is nil, and the first call
    through it panics with a nil pointer dereference.  The four methods
    that write this way unlock without [defer], so the registry lock stays
    held after that panic; the state does not record the lock, and a call
    made on a registry that such a panic left blocks in the code. *)
Definition through_point (key : string) (body : point.t -> point.t) : M t unit :=
  fun a =>
    match points a !! key with
    | Some p => Ret tt (set_points (<[key := body p]> (points a)) a)
    | None => Panic a
    end.

(** [func (a *Analysis) Reject(key string)] *)
Definition Reject (key : string) : M t unit :=
  through_point key (fun p =>
    point.set_rejects (atomic.Incr (point.rejects p)) p).

(** [func (a *Analysis) Failure(key string)] *)
Definition Failure (key : string) : M t unit :=
  through_point key (fun p =>
    let p := point.set_failure (atomic.Incr (point.failure p)) p in
    point.set_continuousFailure (atomic.Incr (point.continuousFailure p)) p).

(** [func (a *Analysis) Request(key string)] *)
Definition Request (key : string) : M t unit :=
  through_point key (fun p =>
    point.set_requests (atomic.Incr (point.requests p)) p).

(** [func (a *Analysis) Response(key string, cost int64)] *)
Definition Response (key : string) (cost : Z) : M t unit :=
  through_point key (fun p =>
    let p := point.set_successed (atomic.Incr (point.successed p)) p in
    let p := point.set_costs (atomic.Add (point.costs p) cost) p in
    let p := point.set_continuousFailure 0 p in
    let p := if point.max p <? cost then point.set_max cost p else p in
    if (point.min p =? 0) || (point.min p >? cost)
    then point.set_min cost p else p).

End Analysis.

(** ** The background loop of a window *)

(** The closure that [AddRecentCount] hands to [RunCancelableTask]:
    [for { select { case <-ctx.Done(): ... case <-timer.C: ... } }]. *)
Module loop.

(** What the loop of one window can see: the registry, whether the
    context is cancelled (its [Done] channel closed), whether the ticker
    is running, and whether a tick waits in the ticker's channel (a
    channel with room for one tick). *)
Record t : Type := mk {
  registry : Analysis.t;
  ctx_done : bool;
  timer_running : bool;
  timer_C : bool
}.

Definition start (a : Analysis.t) : t := mk a false true false.

Inductive select_case : Type := case_ctx_Done | case_timer_C.

(** Where control goes at the end of an iteration of the [for]. *)
Inductive control : Type := next_iteration | leave.

(** A case of the [select] can be chosen when its channel is ready: a
    closed [Done] channel is ready for ever, the ticker's channel is ready
    while a tick waits in it. *)
Definition ready (c : select_case) (s : t) : bool :=
  match c with
  | case_ctx_Done => ctx_done s
  | case_timer_C => timer_C s
  end.

(** One iteration of the [for] that chooses case [c].  Neither case ends
    in [return] or in a labelled [break]: both fall out of the [select]
    to the next iteration. *)
Definition body (key : string) (interval : Z) (c : select_case) : M t control :=
  fun s =>
    match c with
    | case_ctx_Done =>
        (* timer.Stop(); log.Infof(...) *)
        Ret next_iteration (mk (registry s) (ctx_done s) false (timer_C s))
    | case_timer_C =>
        (* the receive takes the tick out of the channel *)
        match Analysis.tick key interval (registry s) with
        | Ret _ a => Ret next_iteration (mk a (ctx_done s) (timer_running s) false)
        | Panic a => Panic (mk a (ctx_done s) (timer_running s) false)
        end
    end.

(** What happens to a loop: the runner cancels its context, the ticker
    fires, or the loop runs an iteration on the case given. *)
Inductive event : Type :=
| Cancel
| Fire
| Select (c : select_case).

(** [leave] is the loop returned; events after that find no loop. *)
Fixpoint run (key : string) (interval : Z) (es : list event) (s : t)
  : Res t control :=
  match es with
  | [] => Ret next_iteration s
  | Cancel :: es =>
      run key interval es (mk (registry s) true (timer_running s) (timer_C s))
  | Fire :: es =>
      run key interval es
          (if timer_running s
           then mk (registry s) (ctx_done s) (timer_running s) true
           else s)
  | Select c :: es =>
      if ready c s then
        match body key interval c s with
        | Ret next_iteration s' => run key interval es s'
        | Ret leave s' => Ret leave s'
        | Panic s' => Panic s'
        end
      else run key interval es s
  end.

(** Whether a run ended with the loop left. *)
Definition has_left (r : Res t control) : bool :=
  match r with
  | Ret leave _ => true
  | _ => false
  end.

End loop.

(** ** Driving a registry *)

Inductive call : Type :=
| AddRecentCount (key : string) (interval : Z)
| Request (key : string)
| Reject (key : string)
| Failure (key : string)
| Response (key : string) (cost : Z)
| Tick (key : string) (interval : Z).

Definition perform (c : call) : M Analysis.t unit :=
  match c with
  | AddRecentCount key interval => Analysis.AddRecentCount key interval
  | Request key => Analysis.Request key
  | Reject key => Analysis.Reject key
  | Failure key => Analysis.Failure key
  | Response key cost => Analysis.Response key cost
  | Tick key interval => Analysis.tick key interval
  end.

Fixpoint perform_all (cs : list call) : M Analysis.t unit :=
  match cs with
  | [] => ret tt
  | c :: cs => perform c >> perform_all cs
  end.

Definition key_of (c : call) : string :=
  match c with
  | AddRecentCount key _ | Request key | Reject key | Failure key
  | Response key _ | Tick key _ => key
  end.

(** The state a closed program of calls leaves, and the value a reader
    returns there. *)
Definition after (cs : list call) : Analysis.t :=
  state_of (perform_all cs Analysis.NewAnalysis).

Definition value_of (r : Res Analysis.t Z) : option Z :=
  match r with Ret v _ => Some v | Panic _ => None end.

(** A key with a one-second window; after the first tick of the window,
    10 requests, 8 successes of 50 ms each and 2 failures; then the second
    tick, the first one that recomputes. *)
Definition upstream1 : list call :=
  [AddRecentCount "upstream-1" time.Second; Tick "upstream-1" time.Second]
  ++ replicate 10 (Request "upstream-1")
  ++ replicate 8 (Response "upstream-1" (50 * time.Millisecond))
  ++ replicate 2 (Failure "upstream-1")
  ++ [Tick "upstream-1" time.Second].

(** ** Predicates on registries *)

(** The registry [a'] is [a] with the point of [key] replaced by [p'], and
    nothing else touched. *)
Definition only_point_changed (key : string) (p' : point.t)
           (a a' : Analysis.t) : Prop :=
  Analysis.points a' !! key = Some p'
  /\ (forall other, other <> key ->
                    Analysis.points a' !! other = Analysis.points a !! other)
  /\ Analysis.recentlyPoints a' = Analysis.recentlyPoints a
  /\ Analysis.taskRunner a' = Analysis.taskRunner a.

(** Every key that has windows has a point. *)
Definition points_cover_windows (a : Analysis.t) : Prop :=
  forall key, is_Some (Analysis.recentlyPoints a !! key) ->
              is_Some (Analysis.points a !! key).

(** A launched loop, named by its key and interval, has a positive
    interval, a point and a window. *)
Definition loop_has_window (a : Analysis.t) (t : string * Z) : Prop :=
  0 < t.2
  /\ is_Some (Analysis.points a !! t.1)
  /\ is_Some (Analysis.window t.1 t.2 a).

(** Every window is stored under its own period, which is not zero. *)
Definition windows_keep_interval (a : Analysis.t) : Prop :=
  forall key interval r,
    Analysis.window key interval a = Some r ->
    Recently.period r = interval /\ interval <> 0.

(** The extremes of point [p] are those of the latencies [seen]: both 0
    when there is none, else the largest and the smallest of them. *)
Definition extremes_of (seen : list Z) (p : point.t) : Prop :=
  match seen with
  | [] => point.max p = 0 /\ point.min p = 0
  | _ => (point.max p ∈ seen /\ Forall (fun c => c <= point.max p) seen)
         /\ (point.min p ∈ seen /\ Forall (fun c => point.min p <= c) seen)
  end.

(** ** Registries used as examples *)

(** A registry with one key and its one-second window. *)
Definition registered1 : Analysis.t :=
  after [AddRecentCount "upstream-1" time.Second].



(** ** Tactics *)

(** The setters of [calc] keep [period]: bring every [whole_seconds] of an
    updated window back to the one of [r]. *)
Ltac whole_seconds_of r :=
  repeat match goal with
         | |- context [Recently.whole_seconds ?x] =>
             lazymatch x with
             | r => fail
             | _ => change (Recently.whole_seconds x)
                      with (Recently.whole_seconds r)
             end
         end.

Ltac calc_cbn := cbn -[Recently.whole_seconds Recently.delta Z.quot sub64].

(** A live point with some traffic on it. *)
Definition busy_point : point.t := point.mk 12 1 2 9 2 450000000 60000000 40000000.

(** The registry of ["upstream-1"] after the first tick of its window. *)
Definition ticked1 : Analysis.t :=
  after [AddRecentCount "upstream-1" time.Second; Tick "upstream-1" time.Second].

(** A loop of ["upstream-1"] that is cancelled, with its ticker stopped and
    one tick still waiting in the channel. *)
Definition stopped1 : loop.t := loop.mk registered1 true false true.

(** Every path through [calc]: whether the request delta is zero, which
    population is divided, and whether the divisor is zero. *)
Ltac calc_paths r :=
  unfold Recently.calc; calc_cbn;
  destruct (Recently.delta (point.requests (Recently.current r))
                           (point.requests (Recently.prev r)) =? 0) eqn:?;
  calc_cbn; whole_seconds_of r;
  destruct (Recently.delta (point.successed (Recently.current r))
                           (point.successed (Recently.prev r))
            >? Recently.delta (point.requests (Recently.current r))
                              (point.requests (Recently.prev r))) eqn:?;
  unfold div64;
  destruct (Recently.whole_seconds r =? 0) eqn:?;
  calc_cbn.




(** * Properties *)

(** ** Machine integers *)

Lemma wrap64_ok (x : Z) : int64_ok (wrap64 x).
Proof.
  unfold int64_ok, int64_min, int64_max, wrap64.
  pose proof (Z.mod_pos_bound (x + 2 ^ 63) (2 ^ 64) ltac:(lia)). lia.
Qed.

Lemma wrap64_id (x : Z) : int64_ok x -> wrap64 x = x.
Proof.
  unfold int64_ok, int64_min, int64_max, wrap64. intros H.
  rewrite Z.mod_small by lia. lia.
Qed.

Lemma Incr_exact (v : Z) : int64_min <= v < int64_max -> atomic.Incr v = v + 1.
Proof. intros H. apply wrap64_id. unfold int64_ok. lia. Qed.

Lemma Add_exact (v d : Z) : int64_ok (v + d) -> atomic.Add v d = v + d.
Proof. apply wrap64_id. Qed.

(** A non-negative [int64] divided by a non-zero [int64] needs no
    wrap-around. *)
Lemma div64_nonneg (x y : Z) :
  0 <= x <= int64_max -> y <> 0 -> div64 x y = Some (Z.quot x y).
Proof.
  intros Hx Hy. unfold div64.
  destruct (Z.eqb_spec y 0) as [->|_]; [done|].
  f_equal. apply wrap64_id.
  assert (Hpos : forall d, 0 < d -> 0 <= Z.quot x d <= x).
  { intros d Hd. rewrite Z.quot_div_nonneg by lia. split.
    - apply Z.div_pos; lia.
    - apply Z.div_le_upper_bound; nia. }
  unfold int64_ok, int64_min, int64_max in *.
  destruct (Z.lt_total y 0) as [Hneg|[->|Hgt]]; [|done|].
  - replace y with (- - y) by lia. rewrite Z.quot_opp_r by lia.
    specialize (Hpos (- y)). lia.
  - specialize (Hpos y). lia.
Qed.

Lemma delta_range (cur prv : Z) : 0 <= Recently.delta cur prv <= int64_max.
Proof.
  unfold Recently.delta, sub64.
  pose proof (wrap64_ok (cur - prv)) as [_ H].
  destruct (Z.ltb_spec (wrap64 (cur - prv)) 0); unfold int64_max in *; lia.
Qed.

(** ** The registry: what a write through the point of a key leaves *)

Section through_point.
Context (key : string) (body : point.t -> point.t).

Lemma through_point_some (a : Analysis.t) (p : point.t) :
  Analysis.points a !! key = Some p ->
  Analysis.through_point key body a
  = Ret tt (Analysis.set_points (<[key := body p]> (Analysis.points a)) a).
Proof. intros H. unfold Analysis.through_point. by rewrite H. Qed.

Lemma through_point_none (a : Analysis.t) :
  Analysis.points a !! key = None ->
  Analysis.through_point key body a = Panic a.
Proof. intros H. unfold Analysis.through_point. by rewrite H. Qed.
End through_point.

Lemma set_points_only (key : string) (p' : point.t) (a : Analysis.t) :
  only_point_changed key p' a
    (Analysis.set_points (<[key := p']> (Analysis.points a)) a).
Proof.
  repeat split; simpl.
  - apply lookup_insert_eq.
  - intros other Hne. by apply lookup_insert_ne.
Qed.

(** ** Counter points *)

(** C7.  A snapshot [p.dump(target)] copies requests, rejects, failures,
    successes, costs and the current max and min of [p] into [target] (the
    streak of [target] is not written), sets max and min of [p] to 0, and
    leaves every cumulative counter of [p] and its continuous-failure streak
    as they were. *)
Theorem dump_copies_and_resets_extremes (p target : point.t) :
  let p' := (point.dump p target).1 in
  let target' := (point.dump p target).2 in
  (point.requests target' = point.requests p
   /\ point.rejects target' = point.rejects p
   /\ point.failure target' = point.failure p
   /\ point.successed target' = point.successed p
   /\ point.costs target' = point.costs p
   /\ point.max target' = point.max p
   /\ point.min target' = point.min p
   /\ point.continuousFailure target' = point.continuousFailure target)
  /\ (point.max p' = 0 /\ point.min p' = 0)
  /\ (point.requests p' = point.requests p
      /\ point.rejects p' = point.rejects p
      /\ point.failure p' = point.failure p
      /\ point.successed p' = point.successed p
      /\ point.costs p' = point.costs p
      /\ point.continuousFailure p' = point.continuousFailure p).
Proof. destruct p, target. cbn. repeat split. Qed.

(** ** The hot path *)

(** What [Response] leaves of the counters that the other properties of
    the hot path need. *)
Lemma Response_resets_streak (a : Analysis.t) (key : string) (cost : Z)
      (p : point.t) :
  Analysis.points a !! key = Some p ->
  exists p' a',
    Analysis.Response key cost a = Ret tt a'
    /\ only_point_changed key p' a a'
    /\ point.successed p' = atomic.Incr (point.successed p)
    /\ point.costs p' = atomic.Add (point.costs p) cost
    /\ point.continuousFailure p' = 0.
Proof.
  intros Hp. unfold Analysis.Response.
  rewrite (through_point_some _ _ _ _ Hp).
  eexists _, _. split; [reflexivity|]. split; [apply set_points_only|].
  destruct p as [rq rj fl su cf co mx mn]. cbn.
  destruct (mx <? cost); cbn; by destruct ((mn =? 0) || (mn >? cost)).
Qed.

(** C8.  For a key whose point [p] exists, [Response(key, cost)] returns,
    touches nothing but that point, adds 1 to its successes and [cost] to
    its costs (in [int64] arithmetic: exactly so while the sums stay in
    range), sets its streak to 0, replaces max by [cost] exactly when
    [cost] exceeds it, and replaces min by [cost] exactly when min is 0 or
    [cost] is below it. *)
Theorem Response_records_success (a : Analysis.t) (key : string) (cost : Z)
        (p : point.t) :
  Analysis.points a !! key = Some p ->
  exists p' a',
    Analysis.Response key cost a = Ret tt a'
    /\ only_point_changed key p' a a'
    /\ point.successed p' = atomic.Incr (point.successed p)
    /\ (int64_min <= point.successed p < int64_max ->
        point.successed p' = point.successed p + 1)
    /\ point.costs p' = atomic.Add (point.costs p) cost
    /\ (int64_ok (point.costs p + cost) ->
        point.costs p' = point.costs p + cost)
    /\ point.continuousFailure p' = 0
    /\ (point.max p < cost -> point.max p' = cost)
    /\ (~ point.max p < cost -> point.max p' = point.max p)
    /\ (point.min p = 0 \/ cost < point.min p -> point.min p' = cost)
    /\ (~ (point.min p = 0 \/ cost < point.min p) -> point.min p' = point.min p)
    /\ point.requests p' = point.requests p
    /\ point.rejects p' = point.rejects p
    /\ point.failure p' = point.failure p.
Proof.
  intros Hp. unfold Analysis.Response.
  rewrite (through_point_some _ _ _ _ Hp).
  eexists _, _. split; [reflexivity|]. split; [apply set_points_only|].
  destruct p as [rq rj fl su cf co mx mn]. cbn.
  destruct (Z.ltb_spec mx cost) as [Hmx|Hmx]; cbn;
    destruct (Z.eqb_spec mn 0) as [Hz|Hz]; cbn;
    destruct (Z.gtb_spec mn cost) as [Hmn|Hmn]; cbn;
    repeat split; intros; try apply Incr_exact; try apply Add_exact;
    try done; try lia.
Qed.

Lemma Response_records_success_witness :
  exists p' a',
    Analysis.Response "upstream-1" (50 * time.Millisecond) registered1 = Ret tt a'
    /\ only_point_changed "upstream-1" p' registered1 a'
    /\ point.successed p' = atomic.Incr 0
    /\ (int64_min <= 0 < int64_max -> point.successed p' = 0 + 1)
    /\ point.costs p' = atomic.Add 0 (50 * time.Millisecond)
    /\ (int64_ok (0 + 50 * time.Millisecond) ->
        point.costs p' = 0 + 50 * time.Millisecond)
    /\ point.continuousFailure p' = 0
    /\ (0 < 50 * time.Millisecond -> point.max p' = 50 * time.Millisecond)
    /\ (~ 0 < 50 * time.Millisecond -> point.max p' = 0)
    /\ (0 = 0 \/ 50 * time.Millisecond < 0 -> point.min p' = 50 * time.Millisecond)
    /\ (~ (0 = 0 \/ 50 * time.Millisecond < 0) -> point.min p' = 0)
    /\ point.requests p' = 0
    /\ point.rejects p' = 0
    /\ point.failure p' = 0.
Proof.
  apply (Response_records_success registered1 "upstream-1"
           (50 * time.Millisecond) point.newPoint).
  vm_compute. reflexivity.
Defined.

(** C1, as the code has it.  For a key whose point [p] exists, each of
    [Request], [Reject], [Failure] and [Response] returns (no panic),
    having applied its mutation to that point and touched nothing else of
    the registry.  The four methods look the point up and never insert
    one: points are created by [AddRecentCount]. *)
Theorem mutators_return_on_existing_point (a : Analysis.t) (key : string)
        (cost : Z) (p : point.t) :
  Analysis.points a !! key = Some p ->
  (exists a', Analysis.Request key a = Ret tt a'
     /\ only_point_changed key
          (point.set_requests (atomic.Incr (point.requests p)) p) a a')
  /\ (exists a', Analysis.Reject key a = Ret tt a'
        /\ only_point_changed key
             (point.set_rejects (atomic.Incr (point.rejects p)) p) a a')
  /\ (exists a', Analysis.Failure key a = Ret tt a'
        /\ only_point_changed key
             (point.set_continuousFailure
                (atomic.Incr (point.continuousFailure p))
                (point.set_failure (atomic.Incr (point.failure p)) p)) a a')
  /\ (exists a' p', Analysis.Response key cost a = Ret tt a'
        /\ only_point_changed key p' a a'
        /\ point.successed p' = atomic.Incr (point.successed p)
        /\ point.costs p' = atomic.Add (point.costs p) cost
        /\ point.continuousFailure p' = 0).
Proof.
  intros Hp. repeat split.
  - eexists. split; [apply (through_point_some _ _ _ _ Hp)|].
    apply set_points_only.
  - eexists. split; [apply (through_point_some _ _ _ _ Hp)|].
    apply set_points_only.
  - eexists. split; [apply (through_point_some _ _ _ _ Hp)|].
    destruct p; apply set_points_only.
  - destruct (Response_resets_streak a key cost p Hp)
      as (p' & a' & Hr & Hc & Hs & Hco & Hcf).
    by exists a', p'.
Qed.

Lemma mutators_return_on_existing_point_witness :
  (exists a', Analysis.Request "upstream-1" registered1 = Ret tt a'
     /\ only_point_changed "upstream-1"
          (point.set_requests (atomic.Incr 0) point.newPoint) registered1 a')
  /\ (exists a', Analysis.Reject "upstream-1" registered1 = Ret tt a'
        /\ only_point_changed "upstream-1"
             (point.set_rejects (atomic.Incr 0) point.newPoint) registered1 a')
  /\ (exists a', Analysis.Failure "upstream-1" registered1 = Ret tt a'
        /\ only_point_changed "upstream-1"
             (point.set_continuousFailure (atomic.Incr 0)
                (point.set_failure (atomic.Incr 0) point.newPoint))
             registered1 a')
  /\ (exists a' p', Analysis.Response "upstream-1" 7 registered1 = Ret tt a'
        /\ only_point_changed "upstream-1" p' registered1 a'
        /\ point.successed p' = atomic.Incr 0
        /\ point.costs p' = atomic.Add 0 7
        /\ point.continuousFailure p' = 0).
Proof.
  apply (mutators_return_on_existing_point registered1 "upstream-1" 7
           point.newPoint).
  vm_compute. reflexivity.
Defined.

(** C1, as the specification words it, fails: on a registry that has no
    point for the key, each of the four methods panics on the nil pointer
    it read from the map, and the registry still has no point for the
    key. *)
Lemma mutators_panic_on_fresh_key :
  Analysis.Request "upstream-1" Analysis.NewAnalysis = Panic Analysis.NewAnalysis
  /\ Analysis.Reject "upstream-1" Analysis.NewAnalysis = Panic Analysis.NewAnalysis
  /\ Analysis.Failure "upstream-1" Analysis.NewAnalysis = Panic Analysis.NewAnalysis
  /\ Analysis.Response "upstream-1" 7 Analysis.NewAnalysis
     = Panic Analysis.NewAnalysis
  /\ Analysis.points Analysis.NewAnalysis !! "upstream-1" = None.
Proof. repeat split. Qed.

Lemma streak_read (a : Analysis.t) (key : string) (p : point.t) :
  Analysis.points a !! key = Some p ->
  Analysis.GetContinuousFailureCount key a
  = Ret (point.continuousFailure p) a.
Proof.
  intros H. unfold Analysis.GetContinuousFailureCount, bind, gets.
  by rewrite H.
Qed.

Lemma perform_all_app (cs1 cs2 : list call) (a a1 : Analysis.t) :
  perform_all cs1 a = Ret tt a1 ->
  perform_all (cs1 ++ cs2) a = perform_all cs2 a1.
Proof.
  revert a. induction cs1 as [|c cs1 IH]; intros a H; cbn in *.
  - unfold ret in H. by inversion H.
  - unfold bind in *. destruct (perform c a) as [[] s|s]; [|done].
    by apply IH.
Qed.

Lemma after_app (cs1 cs2 : list call) :
  returned (perform_all cs1 Analysis.NewAnalysis) = true ->
  after (cs1 ++ cs2) = state_of (perform_all cs2 (after cs1)).
Proof.
  intros H. unfold after.
  destruct (perform_all cs1 Analysis.NewAnalysis) as [[] s|s] eqn:Hrun;
    [|done].
  by rewrite (perform_all_app _ _ _ _ Hrun).
Qed.

Lemma failures_keep_point (key : string) (n : nat) :
  forall (a : Analysis.t) (p : point.t),
    Analysis.points a !! key = Some p ->
    exists a' p',
      perform_all (replicate n (Failure key)) a = Ret tt a'
      /\ Analysis.points a' !! key = Some p'.
Proof.
  induction n as [|n IH]; intros a p Hp; cbn.
  - by exists a, p.
  - cbn [replicate perform_all perform]. unfold bind, Analysis.Failure.
    rewrite (through_point_some _ _ _ _ Hp).
    eapply IH. cbn. apply lookup_insert_eq.
Qed.

(** C10.  For a key whose point exists, a success followed at once by a
    failure leaves the streak read by [GetContinuousFailureCount] at 1;
    and a success sets the streak to 0 whatever it was: after any number
    [n] of further failures, the next success reads 0. *)
Theorem streak_after_success_and_failure (a : Analysis.t) (key : string)
        (cost : Z) (p : point.t) :
  Analysis.points a !! key = Some p ->
  (exists a', (Analysis.Response key cost >> Analysis.Failure key) a = Ret tt a'
     /\ Analysis.GetContinuousFailureCount key a' = Ret 1 a')
  /\ (exists a', Analysis.Response key cost a = Ret tt a'
        /\ Analysis.GetContinuousFailureCount key a' = Ret 0 a')
  /\ (forall n cost', exists a',
         perform_all (replicate n (Failure key) ++ [Response key cost']) a
         = Ret tt a'
         /\ Analysis.GetContinuousFailureCount key a' = Ret 0 a').
Proof.
  intros Hp.
  destruct (Response_resets_streak a key cost p Hp)
    as (p1 & a1 & Hr & (Hp1 & _) & _ & _ & Hcf).
  split; [|split].
  - unfold bind. rewrite Hr. unfold Analysis.Failure.
    rewrite (through_point_some _ _ _ _ Hp1). eexists. split; [done|].
    erewrite streak_read by (cbn; apply lookup_insert_eq).
    cbn. by rewrite Hcf.
  - exists a1. split; [done|]. rewrite (streak_read _ _ _ Hp1). by rewrite Hcf.
  - intros n cost'.
    destruct (failures_keep_point key n a p Hp) as (a2 & p2 & Hrun & Hp2).
    rewrite (perform_all_app _ _ _ _ Hrun).
    cbn [perform_all perform]. unfold bind.
    destruct (Response_resets_streak a2 key cost' p2 Hp2)
      as (p3 & a3 & Hr3 & (Hp3 & _) & _ & _ & Hcf3).
    rewrite Hr3. exists a3. split; [done|].
    rewrite (streak_read _ _ _ Hp3). by rewrite Hcf3.
Qed.

Lemma streak_after_success_and_failure_witness :
  (exists a', (Analysis.Response "upstream-1" 7 >> Analysis.Failure "upstream-1")
                registered1 = Ret tt a'
     /\ Analysis.GetContinuousFailureCount "upstream-1" a' = Ret 1 a')
  /\ (exists a', Analysis.Response "upstream-1" 7 registered1 = Ret tt a'
        /\ Analysis.GetContinuousFailureCount "upstream-1" a' = Ret 0 a')
  /\ (forall n cost', exists a',
         perform_all (replicate n (Failure "upstream-1")
                      ++ [Response "upstream-1" cost']) registered1
         = Ret tt a'
         /\ Analysis.GetContinuousFailureCount "upstream-1" a' = Ret 0 a').
Proof.
  apply (streak_after_success_and_failure registered1 "upstream-1" 7
           point.newPoint).
  vm_compute. reflexivity.
Defined.

(** ** Recomputation *)

Lemma whole_seconds_subsecond (r : Recently.t) :
  0 < Recently.period r < time.Second -> Recently.whole_seconds r = 0.
Proof. intros H. unfold Recently.whole_seconds. apply Z.quot_small. lia. Qed.

Lemma calc_panics_without_whole_second (r : Recently.t) :
  Recently.whole_seconds r = 0 -> returned (Recently.calc r) = false.
Proof.
  intros Hs. unfold Recently.calc. calc_cbn.
  destruct (Recently.delta (point.requests _) _ =? 0); calc_cbn;
    whole_seconds_of r; rewrite Hs; unfold div64; cbn;
    by destruct (_ >? _).
Qed.

(** C2, as the code has it.  For a window whose period has at least one
    whole second (so that the divisor is not zero), recomputation returns
    and the stored QPS is the smaller of the request delta and the success
    delta, divided (truncating) by the period in whole seconds. *)
Theorem calc_qps_smaller_population (r : Recently.t) :
  Recently.whole_seconds r <> 0 ->
  exists r',
    Recently.calc r = Ret tt r'
    /\ Recently.requests r'
       = Recently.delta (point.requests (Recently.current r))
                        (point.requests (Recently.prev r))
    /\ Recently.successed r'
       = Recently.delta (point.successed (Recently.current r))
                        (point.successed (Recently.prev r))
    /\ Recently.qps r'
       = Z.quot (Z.min (Recently.requests r') (Recently.successed r'))
                (Recently.whole_seconds r).
Proof.
  intros Hs. unfold Recently.calc. calc_cbn.
  set (rq := Recently.delta (point.requests _) _).
  set (su := Recently.delta (point.successed _) _).
  assert (Hrq : 0 <= rq <= int64_max) by apply delta_range.
  assert (Hsu : 0 <= su <= int64_max) by apply delta_range.
  destruct (rq =? 0); calc_cbn; whole_seconds_of r;
    destruct (Z.gtb_spec su rq) as [Hgt|Hle];
    rewrite div64_nonneg by done;
    (eexists; split; [reflexivity|]); calc_cbn;
    repeat split; unfold int_of_int64; f_equal; lia.
Qed.

Lemma calc_qps_smaller_population_witness :
  exists r',
    Recently.calc (Recently.newRecently (2 * time.Second)) = Ret tt r'
    /\ Recently.requests r' = Recently.delta 0 0
    /\ Recently.successed r' = Recently.delta 0 0
    /\ Recently.qps r'
       = Z.quot (Z.min (Recently.requests r') (Recently.successed r')) 2.
Proof.
  apply (calc_qps_smaller_population (Recently.newRecently (2 * time.Second))).
  vm_compute. discriminate.
Defined.

(** C2, as the specification words it, fails: in the window of
    ["upstream-1"] the recomputation stores request delta 10, success
    delta 8 and QPS 8, where the larger population over one second is
    10. *)
Lemma qps_is_not_larger_population :
  exists r,
    Analysis.window "upstream-1" time.Second (after upstream1) = Some r
    /\ Recently.requests r = 10
    /\ Recently.successed r = 8
    /\ Recently.whole_seconds r = 1
    /\ Recently.qps r = 8
    /\ Recently.qps r
       <> Z.quot (Z.max (Recently.requests r) (Recently.successed r))
                 (Recently.whole_seconds r).
Proof. eexists. split; [vm_compute; reflexivity|]. by vm_compute. Qed.

(** ** Registration *)

Lemma window_lookup (a : Analysis.t) (key : string) (interval : Z)
      (r : Recently.t) :
  Analysis.window key interval a = Some r <->
  exists windows, Analysis.recentlyPoints a !! key = Some windows
                  /\ windows !! interval = Some r.
Proof.
  unfold Analysis.window. split.
  - destruct (Analysis.recentlyPoints a !! key) as [w|]; [|done]. by exists w.
  - intros (w & -> & H). done.
Qed.

Lemma AddRecentCount_zero (a : Analysis.t) (key : string) :
  Analysis.AddRecentCount key 0 a = Ret tt a.
Proof. reflexivity. Qed.

Lemma AddRecentCount_existing (a : Analysis.t) (key : string) (interval : Z) :
  is_Some (Analysis.points a !! key) ->
  is_Some (Analysis.window key interval a) ->
  Analysis.AddRecentCount key interval a = Ret tt a.
Proof.
  intros [p Hp] [r Hr]. unfold Analysis.AddRecentCount.
  destruct (interval =? 0); [done|].
  unfold bind, gets, ret. rewrite Hp.
  pose proof Hr as Hw. apply window_lookup in Hw as (w & Hw & _).
  rewrite Hw. by rewrite Hr.
Qed.

(** The registry that [AddRecentCount] builds for a pair which has no
    window yet, before it creates the ticker. *)
Lemma AddRecentCount_new (a : Analysis.t) (key : string) (interval : Z) :
  interval <> 0 ->
  Analysis.window key interval a = None ->
  exists a1,
    Analysis.AddRecentCount key interval a
    = (if 0 <? interval
       then Ret tt (Analysis.set_taskRunner
                      (Analysis.taskRunner a ++ [(key, interval)]) a1)
       else Panic a1)
    /\ Analysis.taskRunner a1 = Analysis.taskRunner a
    /\ Analysis.points a1 !! key
       = Some (default point.newPoint (Analysis.points a !! key))
    /\ (forall other, other <> key ->
          Analysis.points a1 !! other = Analysis.points a !! other)
    /\ Analysis.recentlyPoints a1 !! key
       = Some (<[interval := Recently.newRecently interval]>
                 (default ∅ (Analysis.recentlyPoints a !! key)))
    /\ (forall other, other <> key ->
          Analysis.recentlyPoints a1 !! other
          = Analysis.recentlyPoints a !! other).
Proof.
  intros Hi Hw. unfold Analysis.AddRecentCount.
  destruct (Z.eqb_spec interval 0) as [|_]; [done|].
  unfold bind, gets, modify, ret, Analysis.NewTicker,
    Analysis.RunCancelableTask, Analysis.log_Infof, Analysis.set_window,
    time.NewTicker_ok, panic.
  unfold Analysis.window in *.
  destruct (Analysis.points a !! key) as [p|] eqn:Hp;
    destruct (Analysis.recentlyPoints a !! key) as [w|] eqn:Hrp;
    repeat progress
      (cbn; rewrite ?Hrp, ?Hw, ?lookup_insert_eq, ?lookup_empty);
    destruct (0 <? interval); cbn;
    (eexists; split; [reflexivity|]); cbn;
    rewrite ?insert_insert_eq, ?lookup_insert_eq, ?Hp;
    repeat split; try done; intros other Hne;
    by rewrite ?lookup_insert_ne.
Qed.

Lemma tick_found (a : Analysis.t) (key : string) (interval : Z)
      (p : point.t) (windows : gmap Z Recently.t) (r : Recently.t) :
  Analysis.points a !! key = Some p ->
  Analysis.recentlyPoints a !! key = Some windows ->
  windows !! interval = Some r ->
  let store '(r, p) :=
    Analysis.set_recentlyPoints
      (<[key := <[interval := r]> windows]> (Analysis.recentlyPoints a))
      (Analysis.set_points (<[key := p]> (Analysis.points a)) a) in
  Analysis.tick key interval a
  = match Recently.record (r, p) with
    | Ret _ s => Ret tt (store s)
    | Panic s => Panic (store s)
    end.
Proof. intros Hp Hw Hr. unfold Analysis.tick. by rewrite Hp, Hw, Hr. Qed.

Lemma tick_idle (a : Analysis.t) (key : string) (interval : Z) :
  Analysis.points a !! key = None \/ Analysis.window key interval a = None ->
  Analysis.tick key interval a = Ret tt a.
Proof.
  unfold Analysis.tick, Analysis.window. intros [H|H].
  - by rewrite H.
  - destruct (Analysis.points a !! key); [|done].
    destruct (Analysis.recentlyPoints a !! key); [|done]. by rewrite H.
Qed.

Lemma record_fills_prev (r : Recently.t) (p : point.t) :
  Recently.dumpCurr r = false ->
  Recently.record (r, p)
  = Ret tt (Recently.set_dumpCurr true
              (Recently.set_prev (point.dump p (Recently.prev r)).2 r),
            (point.dump p (Recently.prev r)).1).
Proof. intros H. unfold Recently.record. rewrite H. cbn. by rewrite H. Qed.

Lemma record_panics_without_whole_second (r : Recently.t) (p : point.t) :
  Recently.dumpCurr r = true ->
  Recently.whole_seconds r = 0 ->
  returned (Recently.record (r, p)) = false.
Proof.
  intros Hd Hs. unfold Recently.record. rewrite Hd.
  destruct (point.dump p (Recently.current r)) as [p' tgt].
  pose proof (calc_panics_without_whole_second
                (Recently.set_current tgt r) Hs) as Hc.
  by destruct (Recently.calc (Recently.set_current tgt r)) as [[] r'|r'].
Qed.

(** C6.  For an interval that is positive and shorter than one second:
    the period of a window with that interval has no whole second, and its
    recomputation panics on the division that computes QPS, whatever the
    snapshots hold; [AddRecentCount] registers such a window for a pair
    that has none (it returns, stores the window and launches its loop),
    and the second tick of that window, the first to recompute, panics. *)
Theorem subsecond_window_divides_by_zero (interval : Z) :
  0 < interval < time.Second ->
  (forall r, Recently.period r = interval ->
             Recently.whole_seconds r = 0
             /\ returned (Recently.calc r) = false)
  /\ (forall a key,
        Analysis.window key interval a = None ->
        exists a',
          Analysis.AddRecentCount key interval a = Ret tt a'
          /\ Analysis.window key interval a'
             = Some (Recently.newRecently interval)
          /\ Analysis.taskRunner a'
             = Analysis.taskRunner a ++ [(key, interval)]
          /\ returned ((Analysis.tick key interval
                        >> Analysis.tick key interval) a') = false).
Proof.
  intros Hi. split.
  - intros r Hr. rewrite <- Hr in Hi.
    pose proof (whole_seconds_subsecond r Hi) as Hs.
    split; [done|]. by apply calc_panics_without_whole_second.
  - intros a key Hw.
    destruct (AddRecentCount_new a key interval ltac:(lia) Hw)
      as (a1 & Hadd & Htr & Hp & _ & Hrp & _).
    destruct (Z.ltb_spec 0 interval) as [_|]; [|lia].
    eexists. split; [exact Hadd|]. split; [|split].
    + apply window_lookup. eexists. split; [exact Hrp|].
      apply lookup_insert_eq.
    + reflexivity.
    + unfold bind.
      erewrite tick_found;
        [|exact Hp|exact Hrp|apply lookup_insert_eq].
      rewrite record_fills_prev by done.
      erewrite tick_found;
        [|cbn; apply lookup_insert_eq|cbn; apply lookup_insert_eq
         |apply lookup_insert_eq].
      match goal with
      | |- context [Recently.record (?r, ?p)] =>
          pose proof (record_panics_without_whole_second r p eq_refl
                        (whole_seconds_subsecond r Hi)) as Hrec;
          by destruct (Recently.record (r, p)) as [[] s|s]
      end.
Qed.

Lemma subsecond_window_divides_by_zero_witness :
  (forall r, Recently.period r = 500 * time.Millisecond ->
             Recently.whole_seconds r = 0
             /\ returned (Recently.calc r) = false)
  /\ (forall a key,
        Analysis.window key (500 * time.Millisecond) a = None ->
        exists a',
          Analysis.AddRecentCount key (500 * time.Millisecond) a = Ret tt a'
          /\ Analysis.window key (500 * time.Millisecond) a'
             = Some (Recently.newRecently (500 * time.Millisecond))
          /\ Analysis.taskRunner a'
             = Analysis.taskRunner a ++ [(key, 500 * time.Millisecond)]
          /\ returned ((Analysis.tick key (500 * time.Millisecond)
                        >> Analysis.tick key (500 * time.Millisecond)) a')
             = false).
Proof.
  apply (subsecond_window_divides_by_zero (500 * time.Millisecond)).
  vm_compute. split; reflexivity.
Defined.

(** ** Registries reached by calls *)

Lemma state_of_perform_all_cons (c : call) (cs : list call) (a : Analysis.t) :
  state_of (perform_all (c :: cs) a)
  = match perform c a with
    | Ret _ s => state_of (perform_all cs s)
    | Panic s => s
    end.
Proof. cbn. unfold bind. by destruct (perform c a). Qed.

(** A property of registries that every call of a kind [Q] keeps, in the
    state it returns in or panics in, holds after every program of such
    calls. *)
Lemma after_calls_ind (Q : call -> Prop) (P : Analysis.t -> Prop) :
  (forall c a, Q c -> P a -> P (state_of (perform c a))) ->
  forall cs a, Forall Q cs -> P a -> P (state_of (perform_all cs a)).
Proof.
  intros Hstep cs. induction cs as [|c cs IH]; intros a Hcs Ha; [done|].
  rewrite state_of_perform_all_cons. inversion_clear Hcs as [|? ? Hc Hcs'].
  specialize (Hstep c a Hc Ha).
  destruct (perform c a) as [[] s|s]; cbn in Hstep; [by apply IH|done].
Qed.

Lemma through_point_covers (key : string) (body : point.t -> point.t)
      (a : Analysis.t) :
  points_cover_windows a ->
  points_cover_windows (state_of (Analysis.through_point key body a)).
Proof.
  intros Ha. unfold Analysis.through_point.
  destruct (Analysis.points a !! key) as [p|] eqn:Hp; [|done].
  intros k Hk. cbn in *. destruct (decide (k = key)) as [->|Hne].
  - rewrite lookup_insert_eq. by eexists.
  - rewrite lookup_insert_ne by done. by apply Ha.
Qed.

Lemma perform_covers (c : call) (a : Analysis.t) :
  points_cover_windows a -> points_cover_windows (state_of (perform c a)).
Proof.
  intros Ha. destruct c as [key interval|key|key|key|key cost|key interval];
    cbn [perform]; try by apply through_point_covers.
  - destruct (Z.eq_dec interval 0) as [->|Hi]; [done|].
    destruct (Analysis.window key interval a) as [r|] eqn:Hw.
    + rewrite AddRecentCount_existing; [done| |by eexists].
      apply Ha. apply window_lookup in Hw as (w & Hw & _). by eexists.
    + destruct (AddRecentCount_new a key interval Hi Hw)
        as (a1 & -> & _ & Hp & Hpo & Hrp & Hrpo).
      assert (Ha1 : points_cover_windows a1).
      { intros k Hk. destruct (decide (k = key)) as [->|Hne].
        - rewrite Hp. by eexists.
        - rewrite Hpo by done. apply Ha. by rewrite <- Hrpo. }
      by destruct (0 <? interval).
  - unfold Analysis.tick.
    destruct (Analysis.points a !! key) as [p|] eqn:Hp; [|done].
    destruct (Analysis.recentlyPoints a !! key) as [w|] eqn:Hw; [|done].
    destruct (w !! interval) as [r|]; [|done].
    assert (Hs : forall s : Recently.t * point.t,
               points_cover_windows
                 (let '(r, p) := s in
                  Analysis.set_recentlyPoints
                    (<[key := <[interval := r]> w]> (Analysis.recentlyPoints a))
                    (Analysis.set_points (<[key := p]> (Analysis.points a)) a))).
    { intros [r' p'] k Hk.
      cbn [Analysis.points Analysis.recentlyPoints Analysis.set_points
           Analysis.set_recentlyPoints] in *.
      destruct (decide (k = key)) as [->|Hne].
      - rewrite lookup_insert_eq. by eexists.
      - rewrite lookup_insert_ne in Hk by done.
        rewrite lookup_insert_ne by done. by apply Ha. }
    destruct (Recently.record (r, p)) as [[] s|s]; apply Hs.
Qed.

Lemma after_covers (cs : list call) : points_cover_windows (after cs).
Proof.
  unfold after.
  apply (after_calls_ind (fun _ => True) points_cover_windows).
  - intros c a _. apply perform_covers.
  - by apply Forall_forall.
  - intros k [w Hw]. cbn in Hw. by rewrite lookup_empty in Hw.
Qed.

(** C4, as the code has it.  On every registry reached from a new one by
    calls and ticks, [AddRecentCount(key, interval)] returns with the
    registry (points, windows and launched loops) exactly as it was when
    [interval] is zero, and when the pair already has a window. *)
Theorem AddRecentCount_noop (cs : list call) (key : string) (interval : Z) :
  interval = 0 \/ is_Some (Analysis.window key interval (after cs)) ->
  Analysis.AddRecentCount key interval (after cs) = Ret tt (after cs).
Proof.
  intros [->|Hw]; [apply AddRecentCount_zero|].
  apply AddRecentCount_existing; [|done].
  apply after_covers. destruct Hw as [r Hr].
  apply window_lookup in Hr as (w & Hw & _). by eexists.
Qed.

Lemma AddRecentCount_noop_witness :
  Analysis.AddRecentCount "upstream-1" time.Second (after upstream1)
  = Ret tt (after upstream1).
Proof.
  apply (AddRecentCount_noop upstream1 "upstream-1" time.Second).
  right. vm_compute. eexists. reflexivity.
Defined.

(** C4, as the specification words it, fails for a negative interval: the
    guard compares with zero only, so the call on a new registry inserts
    the point and the window of the key and then panics in
    [time.NewTicker]; the registry maps are not what they were. *)
Lemma AddRecentCount_negative_interval :
  let r := Analysis.AddRecentCount "upstream-1" (-1) Analysis.NewAnalysis in
  returned r = false
  /\ Analysis.points (state_of r) !! "upstream-1" = Some point.newPoint
  /\ Analysis.window "upstream-1" (-1) (state_of r)
     = Some (Recently.newRecently (-1))
  /\ Analysis.points (state_of r) <> Analysis.points Analysis.NewAnalysis
  /\ Analysis.recentlyPoints (state_of r)
     <> Analysis.recentlyPoints Analysis.NewAnalysis.
Proof.
  cbv zeta. split; [by vm_compute|]. split; [by vm_compute|].
  split; [by vm_compute|]. split; intros H.
  - apply (f_equal (fun m => m !! "upstream-1")) in H. by vm_compute in H.
  - apply (f_equal (fun m => m !! "upstream-1")) in H. by vm_compute in H.
Qed.

(** ** Readers *)

Lemma read_window_none (a : Analysis.t) (server : string) (interval : Z)
      (field : Recently.t -> Z) :
  Analysis.window server interval a = None ->
  Analysis.read_window server interval field a = Ret 0 a.
Proof.
  unfold Analysis.window, Analysis.read_window, bind, gets, ret.
  destruct (Analysis.recentlyPoints a !! server) as [w|]; [|done].
  by intros ->.
Qed.

Lemma read_window_some (a : Analysis.t) (server : string) (interval : Z)
      (field : Recently.t -> Z) (r : Recently.t) :
  Analysis.window server interval a = Some r ->
  Analysis.read_window server interval field a = Ret (field r) a.
Proof.
  unfold Analysis.window, Analysis.read_window, bind, gets, ret.
  destruct (Analysis.recentlyPoints a !! server) as [w|]; [|done].
  by intros ->.
Qed.

(** A call on another key leaves a key without a point without one. *)
Lemma perform_keeps_point_absent (key : string) (c : call) (a : Analysis.t) :
  key_of c <> key ->
  Analysis.points a !! key = None ->
  Analysis.points (state_of (perform c a)) !! key = None.
Proof.
  intros Hc Ha.
  assert (Hthrough : forall k body, k <> key ->
            Analysis.points (state_of (Analysis.through_point k body a)) !! key
            = None).
  { intros k body Hk. unfold Analysis.through_point.
    destruct (Analysis.points a !! k); [|done].
    cbn. by rewrite lookup_insert_ne. }
  destruct c as [k interval|k|k|k|k cost|k interval]; cbn in Hc;
    cbn [perform]; try by apply Hthrough.
  - destruct (Z.eq_dec interval 0) as [->|Hi]; [done|].
    unfold Analysis.AddRecentCount.
    destruct (Z.eqb_spec interval 0) as [|_]; [done|].
    unfold bind, gets, modify, ret, Analysis.NewTicker,
      Analysis.RunCancelableTask, Analysis.log_Infof, Analysis.set_window,
      Analysis.window, panic.
    repeat (cbn;
            match goal with
            | |- context [match ?x with Some _ => _ | None => _ end] =>
                destruct x
            | |- context [if ?b then _ else _] => destruct b
            end);
      cbn; by rewrite ?lookup_insert_ne.
  - unfold Analysis.tick.
    destruct (Analysis.points a !! k); [|done].
    destruct (Analysis.recentlyPoints a !! k) as [w|]; [|done].
    destruct (w !! interval) as [r|]; [|done].
    destruct (Recently.record _) as [[] [r' p']|[r' p']];
      cbn; by rewrite lookup_insert_ne.
Qed.

Lemma AddRecentCount_existing_windows (a : Analysis.t) (key : string)
      (interval : Z) :
  is_Some (Analysis.window key interval a) ->
  Analysis.recentlyPoints (state_of (Analysis.AddRecentCount key interval a))
  = Analysis.recentlyPoints a.
Proof.
  intros [r Hr]. unfold Analysis.AddRecentCount.
  destruct (interval =? 0); [done|].
  pose proof Hr as Hw. apply window_lookup in Hw as (w & Hw & _).
  unfold bind, gets, modify, ret, Analysis.log_Infof.
  destruct (Analysis.points a !! key); cbn; rewrite Hw; cbn;
    unfold Analysis.window in *; cbn; rewrite Hw in *; by rewrite Hr.
Qed.

Lemma window_default (a : Analysis.t) (key : string) (interval : Z) :
  default ∅ (Analysis.recentlyPoints a !! key) !! interval
  = Analysis.window key interval a.
Proof.
  unfold Analysis.window.
  by destruct (Analysis.recentlyPoints a !! key).
Qed.

(** A call other than the registration of a pair leaves a pair without a
    window without one. *)
Lemma perform_keeps_window_absent (key : string) (interval : Z) (c : call)
      (a : Analysis.t) :
  c <> AddRecentCount key interval ->
  Analysis.window key interval a = None ->
  Analysis.window key interval (state_of (perform c a)) = None.
Proof.
  intros Hc Ha.
  assert (Hthrough : forall k body,
            Analysis.window key interval
              (state_of (Analysis.through_point k body a)) = None).
  { intros k body. unfold Analysis.through_point.
    by destruct (Analysis.points a !! k). }
  destruct c as [k i|k|k|k|k cost|k i]; cbn [perform]; try by apply Hthrough.
  - destruct (Z.eq_dec i 0) as [->|Hi]; [done|].
    destruct (Analysis.window k i a) as [r|] eqn:Hw.
    + unfold Analysis.window.
      rewrite AddRecentCount_existing_windows by (by eexists). exact Ha.
    + destruct (AddRecentCount_new a k i Hi Hw)
        as (a1 & -> & _ & _ & _ & Hrp & Hrpo).
      assert (Ha1 : Analysis.window key interval a1 = None).
      { unfold Analysis.window. destruct (decide (key = k)) as [->|Hne].
        - rewrite Hrp. rewrite lookup_insert_ne by congruence.
          by rewrite window_default.
        - rewrite Hrpo by done. exact Ha. }
      by destruct (0 <? i).
  - destruct (Analysis.points a !! k) as [p|] eqn:Hp;
      [|by rewrite tick_idle by (by left)].
    destruct (Analysis.window k i a) as [r|] eqn:Hw;
      [|by rewrite tick_idle by (by right)].
    apply window_lookup in Hw as (w & Hw & Hr).
    rewrite (tick_found a k i p w r Hp Hw Hr).
    assert (Hs : forall s : Recently.t * point.t,
               Analysis.window key interval
                 (let '(r, p) := s in
                  Analysis.set_recentlyPoints
                    (<[k := <[i := r]> w]> (Analysis.recentlyPoints a))
                    (Analysis.set_points (<[k := p]> (Analysis.points a)) a))
               = None).
    { intros [r' p']. unfold Analysis.window in *.
      cbn [Analysis.recentlyPoints Analysis.set_recentlyPoints].
      destruct (decide (key = k)) as [->|Hne].
      - rewrite lookup_insert_eq. rewrite Hw in Ha.
        destruct (decide (interval = i)) as [->|Hni]; [congruence|].
        by rewrite lookup_insert_ne.
      - by rewrite lookup_insert_ne. }
    destruct (Recently.record (r, p)) as [[] s|s]; apply Hs.
Qed.

(** C9.  After any program of calls and ticks on a new registry: if the
    program never registered the pair of the key and the interval (the key
    was never referenced, or not with that interval), each of the eight
    readers of the window returns 0; if the program never referenced the
    key, [GetContinuousFailureCount] returns 0; no reader panics, and each
    leaves the registry exactly as it found it. *)
Theorem readers_of_unknown_return_zero (cs : list call) (key : string)
        (interval : Z) :
  (Forall (fun c => c <> AddRecentCount key interval) cs ->
   let a := after cs in
   Analysis.GetRecentlyRequestCount key interval a = Ret 0 a
   /\ Analysis.GetRecentlyRequestSuccessedCount key interval a = Ret 0 a
   /\ Analysis.GetRecentlyRequestFailureCount key interval a = Ret 0 a
   /\ Analysis.GetRecentlyRejectCount key interval a = Ret 0 a
   /\ Analysis.GetRecentlyMax key interval a = Ret 0 a
   /\ Analysis.GetRecentlyMin key interval a = Ret 0 a
   /\ Analysis.GetRecentlyAvg key interval a = Ret 0 a
   /\ Analysis.GetQPS key interval a = Ret 0 a)
  /\ (Forall (fun c => key_of c <> key) cs ->
      Analysis.GetContinuousFailureCount key (after cs) = Ret 0 (after cs)).
Proof.
  split.
  - intros Hcs.
    assert (Hw : Analysis.window key interval (after cs) = None).
    { unfold after.
      apply (after_calls_ind (fun c => c <> AddRecentCount key interval)
               (fun a => Analysis.window key interval a = None));
        [|done|done].
      intros c a. apply perform_keeps_window_absent. }
    cbv zeta. repeat split; by apply read_window_none.
  - intros Hcs.
    assert (Hp : Analysis.points (after cs) !! key = None).
    { unfold after.
      apply (after_calls_ind (fun c => key_of c <> key)
               (fun a => Analysis.points a !! key = None));
        [|done|done].
      intros c a. apply perform_keeps_point_absent. }
    unfold Analysis.GetContinuousFailureCount, bind, gets, ret.
    by rewrite Hp.
Qed.

Lemma readers_of_unknown_return_zero_witness :
  (let a := after upstream1 in
   Analysis.GetRecentlyRequestCount "upstream-2" time.Second a = Ret 0 a
   /\ Analysis.GetRecentlyRequestSuccessedCount "upstream-2" time.Second a = Ret 0 a
   /\ Analysis.GetRecentlyRequestFailureCount "upstream-2" time.Second a = Ret 0 a
   /\ Analysis.GetRecentlyRejectCount "upstream-2" time.Second a = Ret 0 a
   /\ Analysis.GetRecentlyMax "upstream-2" time.Second a = Ret 0 a
   /\ Analysis.GetRecentlyMin "upstream-2" time.Second a = Ret 0 a
   /\ Analysis.GetRecentlyAvg "upstream-2" time.Second a = Ret 0 a
   /\ Analysis.GetQPS "upstream-2" time.Second a = Ret 0 a)
  /\ Analysis.GetContinuousFailureCount "upstream-2" (after upstream1)
     = Ret 0 (after upstream1).
Proof.
  destruct (readers_of_unknown_return_zero upstream1 "upstream-2" time.Second)
    as [Hwindow Hpoint].
  split; [apply Hwindow|apply Hpoint];
    unfold upstream1; cbn [app replicate key_of];
    repeat (apply Forall_cons; split; [discriminate|]); constructor.
Defined.

(** ** The scenario of one upstream *)

(** Two registries that a tick of a window turns into one another. *)
Section alternation.
Context (key : string) (interval : Z) (s2 s3 : Analysis.t).
Hypothesis tick23 : Analysis.tick key interval s2 = Ret tt s3.
Hypothesis tick32 : Analysis.tick key interval s3 = Ret tt s2.

End alternation.





(** ** The background loop *)

Lemma body_goes_on (key : string) (interval : Z) (c : loop.select_case)
      (s : loop.t) :
  loop.has_left (loop.body key interval c s) = false.
Proof.
  destruct c; cbn; [done|].
  by destruct (Analysis.tick key interval (loop.registry s)).
Qed.

(** C5, evaluated on the code.  The loop of a window is never left: no
    sequence of cancellations, ticks and iterations ends with the loop
    returned.  On a cancelled context the iteration on [ctx.Done()] stops
    the ticker and falls to the next iteration, with [ctx.Done()] ready
    again.  And for the window of ["upstream-1"], when a tick waits in the
    channel at the moment of the cancellation, the iteration after the one
    that stopped the ticker records a snapshot (the window's [dumpCurr]
    goes from false to true), and the loop is still running. *)
Theorem loop_outlives_cancellation :
  (forall key interval es s,
      loop.has_left (loop.run key interval es s) = false)
  /\ (forall key interval a running waiting,
        loop.body key interval loop.case_ctx_Done
                  (loop.mk a true running waiting)
        = Ret loop.next_iteration (loop.mk a true false waiting))
  /\ (let r := loop.run "upstream-1" time.Second
                 [loop.Fire; loop.Cancel; loop.Select loop.case_ctx_Done;
                  loop.Select loop.case_timer_C;
                  loop.Select loop.case_ctx_Done]
                 (loop.start registered1) in
      Recently.dumpCurr
        <$> Analysis.window "upstream-1" time.Second registered1 = Some false
      /\ returned r = true
      /\ loop.has_left r = false
      /\ loop.ctx_done (state_of r) = true
      /\ loop.timer_running (state_of r) = false
      /\ loop.ready loop.case_ctx_Done (state_of r) = true
      /\ Recently.dumpCurr
           <$> Analysis.window "upstream-1" time.Second
                 (loop.registry (state_of r)) = Some true).
Proof.
  split; [|split].
  - intros key interval es. induction es as [|e es IH]; intros s; [done|].
    destruct e as [| |c]; cbn [loop.run]; try apply IH.
    destruct (loop.ready c s); [|apply IH].
    pose proof (body_goes_on key interval c s) as Hb.
    destruct (loop.body key interval c s) as [[] s'|s']; [apply IH|done|done].
  - reflexivity.
  - vm_compute. repeat split.
Qed.


(** * Further properties of the engine *)

(** ** Recomputation *)

Lemma to_ms_nonneg (v : Z) : 0 <= Recently.to_ms v.
Proof.
  unfold Recently.to_ms. destruct (Z.ltb_spec v 0); [lia|].
  apply Z.quot_pos; [|lia]. apply Z.quot_pos; lia.
Qed.

Lemma calc_derived_nonneg (r : Recently.t) :
  0 <= Recently.requests (state_of (Recently.calc r))
  /\ 0 <= Recently.successed (state_of (Recently.calc r)).
Proof. calc_paths r; split; apply delta_range. Qed.

(** X1.  Whatever the two snapshots hold, and whether [calc] returns or
    panics on the division, the four deltas it stores lie between 0 and
    the largest [int64], and the two latency extremes it stores are not
    negative. *)
Theorem calc_derived_in_range (r : Recently.t) :
  let r' := state_of (Recently.calc r) in
  0 <= Recently.requests r' <= int64_max
  /\ 0 <= Recently.successed r' <= int64_max
  /\ 0 <= Recently.failure r' <= int64_max
  /\ 0 <= Recently.rejects r' <= int64_max
  /\ 0 <= Recently.max r'
  /\ 0 <= Recently.min r'.
Proof.
  cbv zeta. calc_paths r;
    repeat split; try apply delta_range; apply to_ms_nonneg.
Qed.

(** [calc] overwrites the seven fields it derives without reading them. *)
Lemma calc_reads_only (pd : Z) (pv cu : point.t) (dc : bool)
      (q rq su fl rj mx mn av rq0 su0 fl0 rj0 mx0 mn0 av0 : Z) :
  Recently.calc (Recently.mk pd pv cu dc q rq su fl rj mx mn av)
  = Recently.calc (Recently.mk pd pv cu dc q rq0 su0 fl0 rj0 mx0 mn0 av0).
Proof. reflexivity. Qed.

Lemma calc_keeps (r : Recently.t) :
  let r' := state_of (Recently.calc r) in
  Recently.period r' = Recently.period r
  /\ Recently.prev r' = Recently.prev r
  /\ Recently.current r' = Recently.current r
  /\ Recently.dumpCurr r' = Recently.dumpCurr r.
Proof. cbv zeta. calc_paths r; by repeat split. Qed.

Lemma calc_panic_keeps_qps (r r' : Recently.t) :
  Recently.calc r = Panic r' -> Recently.qps r' = Recently.qps r.
Proof. calc_paths r; intros H; by inversion H. Qed.

Lemma calc_return_ignores_qps (pd : Z) (pv cu : point.t) (dc : bool)
      (q q0 rq su fl rj mx mn av : Z) (r' : Recently.t) :
  Recently.calc (Recently.mk pd pv cu dc q rq su fl rj mx mn av) = Ret tt r' ->
  Recently.calc (Recently.mk pd pv cu dc q0 rq su fl rj mx mn av) = Ret tt r'.
Proof.
  unfold Recently.calc, div64.
  cbv beta iota zeta delta
    [Recently.set_requests Recently.set_successed Recently.set_failure
     Recently.set_rejects Recently.set_max Recently.set_min Recently.set_avg
     Recently.set_qps Recently.period Recently.prev Recently.current
     Recently.dumpCurr Recently.qps Recently.requests Recently.successed
     Recently.failure Recently.rejects Recently.max Recently.min Recently.avg
     Recently.whole_seconds].
  destruct (Recently.delta (point.requests cu) (point.requests pv) =? 0);
    cbv beta iota; destruct (_ >? _); destruct (_ =? 0);
    intros H; first [exact H|discriminate H].
Qed.

(** X2.  Recomputing a window twice in a row is the same as recomputing it
    once: [calc] reads the two snapshots and the period only, and writes
    none of them. *)
Theorem calc_idempotent (r : Recently.t) :
  Recently.calc (state_of (Recently.calc r)) = Recently.calc r.
Proof.
  pose proof (calc_keeps r) as (Hpd & Hpv & Hcu & Hdc).
  destruct (Recently.calc r) as [[] r'|r'] eqn:Hcalc; cbn [state_of] in *.
  - destruct r as [pd pv cu dc q rq su fl rj mx mn av],
             r' as [pd' pv' cu' dc' q' rq' su' fl' rj' mx' mn' av'].
    cbn in Hpd, Hpv, Hcu, Hdc. subst pd' pv' cu' dc'.
    rewrite (calc_reads_only pd pv cu dc q' rq' su' fl' rj' mx' mn' av'
               rq su fl rj mx mn av).
    by apply (calc_return_ignores_qps pd pv cu dc q q').
  - pose proof (calc_panic_keeps_qps r r' Hcalc) as Hq.
    rewrite <- Hcalc.
    destruct r as [pd pv cu dc q rq su fl rj mx mn av],
             r' as [pd' pv' cu' dc' q' rq' su' fl' rj' mx' mn' av'].
    cbn in Hpd, Hpv, Hcu, Hdc, Hq. subst pd' pv' cu' dc' q'.
    apply calc_reads_only.
Qed.

(** What [calc] stores when the period has a whole second. *)
Lemma calc_returns (r : Recently.t) :
  Recently.whole_seconds r <> 0 ->
  exists r',
    Recently.calc r = Ret tt r'
    /\ Recently.period r' = Recently.period r
    /\ Recently.prev r' = Recently.prev r
    /\ Recently.current r' = Recently.current r
    /\ Recently.dumpCurr r' = Recently.dumpCurr r
    /\ Recently.requests r'
       = Recently.delta (point.requests (Recently.current r))
                        (point.requests (Recently.prev r))
    /\ Recently.successed r'
       = Recently.delta (point.successed (Recently.current r))
                        (point.successed (Recently.prev r))
    /\ Recently.failure r'
       = Recently.delta (point.failure (Recently.current r))
                        (point.failure (Recently.prev r))
    /\ Recently.rejects r'
       = Recently.delta (point.rejects (Recently.current r))
                        (point.rejects (Recently.prev r))
    /\ Recently.max r' = Recently.to_ms (point.max (Recently.current r))
    /\ Recently.min r' = Recently.to_ms (point.min (Recently.current r)).
Proof.
  intros Hs. calc_paths r;
    try (apply Z.eqb_eq in Heqb1; contradiction);
    (eexists; split; [reflexivity|]); calc_cbn; by repeat split.
Qed.

Lemma delta_exact (cur prv : Z) :
  0 <= cur - prv <= int64_max -> Recently.delta cur prv = cur - prv.
Proof.
  intros H. unfold Recently.delta, sub64.
  rewrite wrap64_id by (unfold int64_ok, int64_min, int64_max in *; lia).
  destruct (Z.ltb_spec (cur - prv) 0); lia.
Qed.

(** ** Snapshots in pairs *)

(** X3.  A window whose next snapshot goes to [prev] and whose period has
    a whole second measures the traffic between two ticks: after [record]
    on the live point as it is at the first tick ([p1]) and then on the
    live point as it is at the second ([p2]), both calls have returned,
    the four counts stored are the clamped differences of the cumulative
    counters of [p2] and [p1] (the plain difference when it fits between 0
    and the largest [int64]), the extremes stored are those of [p2] in
    milliseconds, and the next snapshot goes to [prev] again. *)
Theorem record_pair_measures (r : Recently.t) (p1 p2 : point.t) :
  Recently.dumpCurr r = false ->
  Recently.whole_seconds r <> 0 ->
  exists r1 p1' r2 p2',
    Recently.record (r, p1) = Ret tt (r1, p1')
    /\ Recently.record (r1, p2) = Ret tt (r2, p2')
    /\ Recently.requests r2
       = Recently.delta (point.requests p2) (point.requests p1)
    /\ Recently.successed r2
       = Recently.delta (point.successed p2) (point.successed p1)
    /\ Recently.failure r2
       = Recently.delta (point.failure p2) (point.failure p1)
    /\ Recently.rejects r2
       = Recently.delta (point.rejects p2) (point.rejects p1)
    /\ (0 <= point.requests p2 - point.requests p1 <= int64_max ->
        Recently.requests r2 = point.requests p2 - point.requests p1)
    /\ Recently.max r2 = Recently.to_ms (point.max p2)
    /\ Recently.min r2 = Recently.to_ms (point.min p2)
    /\ Recently.dumpCurr r2 = false.
Proof.
  intros Hd Hs. rewrite (record_fills_prev r p1 Hd).
  set (r1 := Recently.set_dumpCurr true _).
  eexists r1, _. unfold Recently.record.
  change (Recently.dumpCurr r1) with true. cbv iota.
  destruct (point.dump p2 (Recently.current r1)) as [p2' tgt] eqn:Hdump.
  destruct (calc_returns (Recently.set_current tgt r1) Hs)
    as (r2 & -> & _ & Hpv & Hcu & Hdc & Hrq & Hsu & Hfl & Hrj & Hmx & Hmn).
  exists (Recently.set_dumpCurr (negb (Recently.dumpCurr r2)) r2), p2'.
  split; [reflexivity|]. split; [reflexivity|].
  assert (Htgt : tgt = (point.dump p2 (Recently.current r1)).2)
    by (by rewrite Hdump).
  cbn [Recently.requests Recently.successed Recently.failure Recently.rejects
       Recently.max Recently.min Recently.dumpCurr Recently.set_dumpCurr].
  rewrite Hrq, Hsu, Hfl, Hrj, Hmx, Hmn, Hdc.
  cbn [Recently.current Recently.prev Recently.set_current Recently.dumpCurr].
  subst tgt. destruct p1, p2. cbn.
  repeat split; try done. intros H. by apply delta_exact.
Qed.

(** What [record] leaves, returned or not: the live point with its
    extremes at 0, and the window with its period. *)
Lemma record_state (r : Recently.t) (p : point.t) :
  let s := state_of (Recently.record (r, p)) in
  s.2 = point.set_max 0 (point.set_min 0 p)
  /\ Recently.period s.1 = Recently.period r.
Proof.
  cbv zeta. unfold Recently.record.
  destruct (Recently.dumpCurr r) eqn:Hd; cbn [point.dump]; [|by cbn].
  set (tgt := point.set_costs _ _).
  pose proof (calc_keeps (Recently.set_current tgt r)) as (Hp & _).
  by destruct (Recently.calc (Recently.set_current tgt r)) as [[] r'|r'].
Qed.

(** ** Ticks on the registry *)

(** X4.  A tick of the window of [key] and [interval], returned or not,
    launches nothing, leaves the point of every other key and every other
    window (also the other windows of [key]) as they were, and changes
    nothing of the point of [key] but its extremes: the six counters
    stay, and max and min are 0 afterwards when the window exists.  When
    the point or the window is missing the registry is unchanged. *)
Theorem tick_touches_one_window (a : Analysis.t) (key : string)
        (interval : Z) :
  let a' := state_of (Analysis.tick key interval a) in
  Analysis.taskRunner a' = Analysis.taskRunner a
  /\ (forall other, other <> key ->
        Analysis.points a' !! other = Analysis.points a !! other)
  /\ (forall k i, k <> key \/ i <> interval ->
        Analysis.window k i a' = Analysis.window k i a)
  /\ (forall p, Analysis.points a !! key = Some p ->
        is_Some (Analysis.window key interval a) ->
        Analysis.points a' !! key
        = Some (point.set_max 0 (point.set_min 0 p)))
  /\ (Analysis.points a !! key = None
      \/ Analysis.window key interval a = None -> a' = a).
Proof.
  cbv zeta.
  destruct (Analysis.points a !! key) as [p|] eqn:Hp;
    [|rewrite tick_idle by (by left); by repeat split].
  destruct (Analysis.window key interval a) as [r|] eqn:Hw;
    [|rewrite tick_idle by (by right); repeat split; try done;
      by intros ? ? []].
  pose proof Hw as Hw'. apply window_lookup in Hw' as (w & Hrp & Hr).
  rewrite (tick_found a key interval p w r Hp Hrp Hr).
  pose proof (record_state r p) as [Hpt _].
  assert (Hstore : forall s : Recently.t * point.t,
             s.2 = point.set_max 0 (point.set_min 0 p) ->
             let a' :=
               (let '(r, p) := s in
                Analysis.set_recentlyPoints
                  (<[key := <[interval := r]> w]> (Analysis.recentlyPoints a))
                  (Analysis.set_points (<[key := p]> (Analysis.points a)) a)) in
             Analysis.taskRunner a' = Analysis.taskRunner a
             /\ (forall other, other <> key ->
                   Analysis.points a' !! other = Analysis.points a !! other)
             /\ (forall k i, k <> key \/ i <> interval ->
                   Analysis.window k i a' = Analysis.window k i a)
             /\ Analysis.points a' !! key
                = Some (point.set_max 0 (point.set_min 0 p))).
  { intros [r' p'] Hs. cbn in Hs. subst p'. cbv zeta.
    split; [done|]. split; [|split].
    - intros other Hne. cbn. by rewrite lookup_insert_ne.
    - intros k i Hki. unfold Analysis.window.
      cbn [Analysis.recentlyPoints Analysis.set_recentlyPoints].
      destruct (decide (k = key)) as [->|Hne].
      + rewrite lookup_insert_eq, Hrp.
        destruct Hki as [|Hi]; [done|]. by rewrite lookup_insert_ne.
      + by rewrite lookup_insert_ne.
    - cbn. apply lookup_insert_eq. }
  destruct (Recently.record (r, p)) as [[] s|s]; cbn [state_of] in *;
    destruct (Hstore s Hpt) as (H1 & H2 & H3 & H4);
    repeat split; try done.
  - intros p0 Hp0 _. by inversion Hp0; subst.
  - by intros [|].
  - intros p0 Hp0 _. by inversion Hp0; subst.
  - by intros [|].
Qed.

Lemma tick_found_ret (a : Analysis.t) (key : string) (interval : Z)
      (p p' : point.t) (r r' : Recently.t) :
  Analysis.points a !! key = Some p ->
  Analysis.window key interval a = Some r ->
  Recently.record (r, p) = Ret tt (r', p') ->
  exists a',
    Analysis.tick key interval a = Ret tt a'
    /\ Analysis.points a' !! key = Some p'
    /\ Analysis.window key interval a' = Some r'.
Proof.
  intros Hp Hw Hrec. apply window_lookup in Hw as (w & Hrp & Hr).
  rewrite (tick_found a key interval p w r Hp Hrp Hr), Hrec.
  eexists. split; [reflexivity|]. split.
  - cbn. apply lookup_insert_eq.
  - unfold Analysis.window. cbn. by rewrite !lookup_insert_eq.
Qed.

Lemma tick_resets_extremes (a : Analysis.t) (key : string) (interval : Z)
      (p : point.t) :
  Analysis.points a !! key = Some p ->
  is_Some (Analysis.window key interval a) ->
  Analysis.points (state_of (Analysis.tick key interval a)) !! key
  = Some (point.set_max 0 (point.set_min 0 p)).
Proof.
  intros Hp [r Hw]. apply window_lookup in Hw as (w & Hrp & Hr).
  rewrite (tick_found a key interval p w r Hp Hrp Hr).
  pose proof (record_state r p) as [Hpt _].
  destruct (Recently.record (r, p)) as [[] [r' p']|[r' p']];
    cbn in *; subst p'; apply lookup_insert_eq.
Qed.

Lemma record_on_current (r : Recently.t) (p : point.t) :
  Recently.dumpCurr r = true ->
  Recently.whole_seconds r <> 0 ->
  exists r',
    Recently.record (r, p)
    = Ret tt (r', point.set_max 0 (point.set_min 0 p))
    /\ Recently.dumpCurr r' = false
    /\ Recently.max r' = Recently.to_ms (point.max p)
    /\ Recently.min r' = Recently.to_ms (point.min p).
Proof.
  intros Hd Hs. unfold Recently.record. rewrite Hd. cbn [point.dump].
  set (tgt := point.set_costs _ _).
  destruct (calc_returns (Recently.set_current tgt r) Hs)
    as (r' & -> & _ & _ & _ & Hdc & _ & _ & _ & _ & Hmx & Hmn).
  eexists. split; [reflexivity|]. cbn in Hdc.
  cbn [Recently.dumpCurr Recently.max Recently.min Recently.set_dumpCurr].
  rewrite Hdc, Hd, Hmx, Hmn. by destruct p.
Qed.

(** X5.  The statistics of a window are refreshed by every other tick
    only: a tick of a window whose next snapshot goes to [prev] returns,
    aims the next snapshot at [current], and leaves the value that each of
    the eight readers of the window returns as it was. *)
Theorem tick_on_prev_keeps_reads (a : Analysis.t) (key : string)
        (interval : Z) (p : point.t) (r : Recently.t) :
  Analysis.points a !! key = Some p ->
  Analysis.window key interval a = Some r ->
  Recently.dumpCurr r = false ->
  exists a' r',
    Analysis.tick key interval a = Ret tt a'
    /\ Analysis.window key interval a' = Some r'
    /\ Recently.dumpCurr r' = true
    /\ value_of (Analysis.GetRecentlyRequestCount key interval a')
       = value_of (Analysis.GetRecentlyRequestCount key interval a)
    /\ value_of (Analysis.GetRecentlyRequestSuccessedCount key interval a')
       = value_of (Analysis.GetRecentlyRequestSuccessedCount key interval a)
    /\ value_of (Analysis.GetRecentlyRequestFailureCount key interval a')
       = value_of (Analysis.GetRecentlyRequestFailureCount key interval a)
    /\ value_of (Analysis.GetRecentlyRejectCount key interval a')
       = value_of (Analysis.GetRecentlyRejectCount key interval a)
    /\ value_of (Analysis.GetRecentlyMax key interval a')
       = value_of (Analysis.GetRecentlyMax key interval a)
    /\ value_of (Analysis.GetRecentlyMin key interval a')
       = value_of (Analysis.GetRecentlyMin key interval a)
    /\ value_of (Analysis.GetRecentlyAvg key interval a')
       = value_of (Analysis.GetRecentlyAvg key interval a)
    /\ value_of (Analysis.GetQPS key interval a')
       = value_of (Analysis.GetQPS key interval a).
Proof.
  intros Hp Hw Hd.
  destruct (tick_found_ret a key interval p _ r _ Hp Hw
              (record_fills_prev r p Hd)) as (a' & Ht & _ & Hw').
  eexists a', _. split; [exact Ht|]. split; [exact Hw'|].
  split; [reflexivity|].
  unfold Analysis.GetRecentlyRequestCount,
    Analysis.GetRecentlyRequestSuccessedCount,
    Analysis.GetRecentlyRequestFailureCount, Analysis.GetRecentlyRejectCount,
    Analysis.GetRecentlyMax, Analysis.GetRecentlyMin, Analysis.GetRecentlyAvg,
    Analysis.GetQPS.
  repeat split;
    by rewrite (read_window_some _ _ _ _ _ Hw'), (read_window_some _ _ _ _ _ Hw).
Qed.

(** X6.  The extremes of a point are shared by all the windows of its key
    and erased by every tick of any of them: when a tick of one window of
    a key has returned and the next event on the key is a recomputing tick
    (of the same window or of another one, with a whole second in its
    period), that tick returns and the maximum and minimum latency read
    for its window are 0, whatever the extremes of the point were before
    the first tick. *)
Theorem tick_after_tick_reads_zero_extremes (a a1 : Analysis.t)
        (key : string) (i1 i2 : Z) (p : point.t) (r2 : Recently.t) :
  Analysis.points a !! key = Some p ->
  is_Some (Analysis.window key i1 a) ->
  Analysis.tick key i1 a = Ret tt a1 ->
  Analysis.window key i2 a1 = Some r2 ->
  Recently.dumpCurr r2 = true ->
  Recently.whole_seconds r2 <> 0 ->
  exists a2,
    Analysis.tick key i2 a1 = Ret tt a2
    /\ Analysis.GetRecentlyMax key i2 a2 = Ret 0 a2
    /\ Analysis.GetRecentlyMin key i2 a2 = Ret 0 a2.
Proof.
  intros Hp Hw1 Ht1 Hw2 Hd Hs.
  pose proof (tick_resets_extremes a key i1 p Hp Hw1) as Hp1.
  rewrite Ht1 in Hp1. cbn [state_of] in Hp1.
  destruct (record_on_current r2 (point.set_max 0 (point.set_min 0 p)) Hd Hs)
    as (r' & Hrec & _ & Hmx & Hmn).
  destruct (tick_found_ret a1 key i2 _ _ r2 r' Hp1 Hw2 Hrec)
    as (a2 & Ht2 & _ & Hw').
  exists a2. split; [exact Ht2|].
  unfold Analysis.GetRecentlyMax, Analysis.GetRecentlyMin.
  rewrite !(read_window_some _ _ _ _ _ Hw'), Hmx, Hmn.
  by destruct p.
Qed.

(** ** Registration *)

Lemma AddRecentCount_on_window (a : Analysis.t) (key : string)
      (interval : Z) (r : Recently.t) :
  interval <> 0 ->
  Analysis.window key interval a = Some r ->
  exists a',
    Analysis.AddRecentCount key interval a = Ret tt a'
    /\ is_Some (Analysis.points a' !! key)
    /\ Analysis.window key interval a' = Some r.
Proof.
  intros Hi Hr. unfold Analysis.AddRecentCount.
  destruct (Z.eqb_spec interval 0) as [|_]; [done|].
  pose proof Hr as Hw. apply window_lookup in Hw as (w & Hw & Hwi).
  unfold bind, gets, modify, ret, Analysis.log_Infof.
  destruct (Analysis.points a !! key) as [p|] eqn:Hp; cbn; rewrite Hw; cbn;
    unfold Analysis.window; cbn; rewrite Hw, Hwi;
    (eexists; split; [reflexivity|]); cbn;
    rewrite ?lookup_insert_eq, ?Hp, ?Hw; by split.
Qed.

(** X7.  Registering a pair twice in a row is the same as registering it
    once, on every registry and for every interval: the second call finds
    the window (or is not reached, when the first one panics), so it
    inserts nothing and launches no second loop. *)
Theorem AddRecentCount_idempotent (a : Analysis.t) (key : string)
        (interval : Z) :
  (Analysis.AddRecentCount key interval >> Analysis.AddRecentCount key interval) a
  = Analysis.AddRecentCount key interval a.
Proof.
  unfold bind at 1.
  destruct (Z.eq_dec interval 0) as [->|Hi]; [done|].
  destruct (Analysis.window key interval a) as [r|] eqn:Hw.
  - destruct (AddRecentCount_on_window a key interval r Hi Hw)
      as (a' & -> & Hp & Hw').
    apply AddRecentCount_existing; [done|by eexists].
  - destruct (AddRecentCount_new a key interval Hi Hw)
      as (a1 & -> & _ & Hp & _ & Hrp & _).
    destruct (0 <? interval); [|done].
    apply AddRecentCount_existing.
    + cbn. rewrite Hp. by eexists.
    + exists (Recently.newRecently interval). apply window_lookup.
      eexists. split; [exact Hrp|]. apply lookup_insert_eq.
Qed.

Lemma AddRecentCount_on_window_state (a : Analysis.t) (key : string)
      (interval : Z) :
  interval <> 0 ->
  is_Some (Analysis.window key interval a) ->
  Analysis.AddRecentCount key interval a
  = Ret tt (if Analysis.points a !! key is Some _ then a
            else Analysis.set_points
                   (<[key := point.newPoint]> (Analysis.points a)) a).
Proof.
  intros Hi [r Hr]. unfold Analysis.AddRecentCount.
  destruct (Z.eqb_spec interval 0) as [|_]; [done|].
  pose proof Hr as Hw. apply window_lookup in Hw as (w & Hw & Hwi).
  unfold bind, gets, modify, ret, Analysis.log_Infof.
  destruct (Analysis.points a !! key) as [p|] eqn:Hp; cbn; rewrite Hw; cbn;
    unfold Analysis.window; cbn; by rewrite Hw, Hwi.
Qed.

(** What a registration leaves of the points and windows there were, and
    what it can add. *)
Lemma AddRecentCount_preserves (a : Analysis.t) (key : string) (interval : Z) :
  let a' := state_of (Analysis.AddRecentCount key interval a) in
  (forall k p, Analysis.points a !! k = Some p ->
               Analysis.points a' !! k = Some p)
  /\ (forall k, Analysis.points a !! k = None ->
                Analysis.points a' !! k = None
                \/ (k = key /\ Analysis.points a' !! k = Some point.newPoint))
  /\ (forall k i r, Analysis.window k i a = Some r ->
                    Analysis.window k i a' = Some r)
  /\ (forall k i, Analysis.window k i a = None ->
                  Analysis.window k i a' = None
                  \/ (k = key /\ i = interval /\ interval <> 0
                      /\ Analysis.window k i a'
                         = Some (Recently.newRecently interval))).
Proof.
  cbv zeta. destruct (Z.eq_dec interval 0) as [->|Hi].
  { rewrite AddRecentCount_zero. cbn. repeat split; auto. }
  destruct (Analysis.window key interval a) as [r|] eqn:Hw.
  - rewrite AddRecentCount_on_window_state by (done || by eexists).
    cbn [state_of].
    destruct (Analysis.points a !! key) as [p|] eqn:Hp;
      [repeat split; auto|].
    split; [|split; [|split]]; try (by auto).
    + intros k p Hk. cbn. rewrite lookup_insert_ne; [done|congruence].
    + intros k Hk. cbn. destruct (decide (k = key)) as [->|Hne].
      * right. by rewrite lookup_insert_eq.
      * left. by rewrite lookup_insert_ne.
  - destruct (AddRecentCount_new a key interval Hi Hw)
      as (a1 & -> & _ & Hp & Hpo & Hrp & Hrpo).
    assert (Ha1 :
      (forall k p, Analysis.points a !! k = Some p ->
                   Analysis.points a1 !! k = Some p)
      /\ (forall k, Analysis.points a !! k = None ->
                    Analysis.points a1 !! k = None
                    \/ (k = key
                        /\ Analysis.points a1 !! k = Some point.newPoint))
      /\ (forall k i r, Analysis.window k i a = Some r ->
                        Analysis.window k i a1 = Some r)
      /\ (forall k i, Analysis.window k i a = None ->
                      Analysis.window k i a1 = None
                      \/ (k = key /\ i = interval /\ interval <> 0
                          /\ Analysis.window k i a1
                             = Some (Recently.newRecently interval)))).
    { split; [|split; [|split]].
      - intros k p Hk. destruct (decide (k = key)) as [->|Hne].
        + by rewrite Hp, Hk.
        + by rewrite Hpo.
      - intros k Hk. destruct (decide (k = key)) as [->|Hne].
        + right. by rewrite Hp, Hk.
        + left. by rewrite Hpo.
      - intros k i r Hk. unfold Analysis.window in *.
        destruct (decide (k = key)) as [->|Hne]; [|by rewrite Hrpo].
        rewrite Hrp. destruct (decide (i = interval)) as [->|Hni].
        + congruence.
        + rewrite lookup_insert_ne by done.
          by destruct (Analysis.recentlyPoints a !! key).
      - intros k i Hk. unfold Analysis.window in *.
        destruct (decide (k = key)) as [->|Hne]; [|left; by rewrite Hrpo].
        rewrite Hrp. destruct (decide (i = interval)) as [->|Hni].
        + right. by rewrite lookup_insert_eq.
        + left. rewrite lookup_insert_ne by done.
          by destruct (Analysis.recentlyPoints a !! key). }
    by destruct (0 <? interval).
Qed.

Lemma tick_preserves (a : Analysis.t) (key : string) (interval : Z) :
  let a' := state_of (Analysis.tick key interval a) in
  Analysis.taskRunner a' = Analysis.taskRunner a
  /\ (forall k, is_Some (Analysis.points a !! k) ->
                is_Some (Analysis.points a' !! k))
  /\ (forall k i, is_Some (Analysis.window k i a) ->
                  is_Some (Analysis.window k i a'))
  /\ (forall k i r', Analysis.window k i a' = Some r' ->
        exists r, Analysis.window k i a = Some r
                  /\ Recently.period r' = Recently.period r).
Proof.
  cbv zeta.
  destruct (Analysis.points a !! key) as [p|] eqn:Hp;
    [|rewrite tick_idle by (by left); repeat split; eauto].
  destruct (Analysis.window key interval a) as [r|] eqn:Hw;
    [|rewrite tick_idle by (by right); repeat split; eauto].
  pose proof Hw as Hw'. apply window_lookup in Hw' as (w & Hrp & Hr).
  rewrite (tick_found a key interval p w r Hp Hrp Hr).
  pose proof (record_state r p) as [_ Hpd].
  assert (Hstore : forall s : Recently.t * point.t,
             Recently.period s.1 = Recently.period r ->
             let a' :=
               (let '(r, p) := s in
                Analysis.set_recentlyPoints
                  (<[key := <[interval := r]> w]> (Analysis.recentlyPoints a))
                  (Analysis.set_points (<[key := p]> (Analysis.points a)) a)) in
             Analysis.taskRunner a' = Analysis.taskRunner a
             /\ (forall k, is_Some (Analysis.points a !! k) ->
                           is_Some (Analysis.points a' !! k))
             /\ (forall k i, is_Some (Analysis.window k i a) ->
                             is_Some (Analysis.window k i a'))
             /\ (forall k i r', Analysis.window k i a' = Some r' ->
                   exists r, Analysis.window k i a = Some r
                             /\ Recently.period r' = Recently.period r)).
  { intros [r' p'] Hs. cbn in Hs. cbv zeta.
    assert (Hwin : forall k i,
               Analysis.window k i
                 (Analysis.set_recentlyPoints
                    (<[key := <[interval := r']> w]> (Analysis.recentlyPoints a))
                    (Analysis.set_points (<[key := p']> (Analysis.points a)) a))
               = if decide (k = key /\ i = interval) then Some r'
                 else Analysis.window k i a).
    { intros k i. unfold Analysis.window.
      cbn [Analysis.recentlyPoints Analysis.set_recentlyPoints].
      destruct (decide (k = key)) as [->|Hne].
      - rewrite lookup_insert_eq, Hrp.
        destruct (decide (i = interval)) as [->|Hni].
        + rewrite lookup_insert_eq. by rewrite decide_True.
        + rewrite lookup_insert_ne by done.
          rewrite decide_False; [done|]. by intros [_ ?].
      - rewrite lookup_insert_ne by done.
        rewrite decide_False; [done|]. by intros [? _]. }
    split; [done|]. split; [|split].
    - intros k Hk. cbn. destruct (decide (k = key)) as [->|Hne].
      + rewrite lookup_insert_eq. by eexists.
      + by rewrite lookup_insert_ne.
    - intros k i Hk. rewrite Hwin. case_decide; [by eexists|done].
    - intros k i r0 Hk. rewrite Hwin in Hk. case_decide as Hki.
      + destruct Hki as [-> ->]. inversion Hk; subst r0. by exists r.
      + by exists r0. }
  destruct (Recently.record (r, p)) as [[] s|s]; cbn [state_of] in *;
    by apply Hstore.
Qed.

Lemma through_point_preserves (key : string) (body : point.t -> point.t)
      (a : Analysis.t) :
  let a' := state_of (Analysis.through_point key body a) in
  Analysis.taskRunner a' = Analysis.taskRunner a
  /\ Analysis.recentlyPoints a' = Analysis.recentlyPoints a
  /\ (forall k, is_Some (Analysis.points a !! k) ->
                is_Some (Analysis.points a' !! k)).
Proof.
  cbv zeta. unfold Analysis.through_point.
  destruct (Analysis.points a !! key) as [p|] eqn:Hp; [|done].
  repeat split. intros k Hk. cbn. destruct (decide (k = key)) as [->|Hne].
  - rewrite lookup_insert_eq. by eexists.
  - by rewrite lookup_insert_ne.
Qed.

(** The loops a registration launches, and when it returns. *)
Lemma AddRecentCount_tasks (a : Analysis.t) (key : string) (interval : Z) :
  let res := Analysis.AddRecentCount key interval a in
  Analysis.taskRunner (state_of res)
  = (if decide (Analysis.window key interval a = None /\ 0 < interval)
     then Analysis.taskRunner a ++ [(key, interval)]
     else Analysis.taskRunner a)
  /\ (returned res = true ->
      Analysis.window key interval a = None -> 0 <= interval).
Proof.
  cbv zeta. destruct (Z.eq_dec interval 0) as [->|Hi].
  { rewrite AddRecentCount_zero. cbn. split; [|done].
    rewrite decide_False; [done|lia]. }
  destruct (Analysis.window key interval a) as [r|] eqn:Hw.
  - rewrite AddRecentCount_on_window_state by (done || by eexists).
    cbn [state_of]. split; [|done].
    rewrite decide_False by (by intros [? _]).
    by destruct (Analysis.points a !! key).
  - destruct (AddRecentCount_new a key interval Hi Hw)
      as (a1 & -> & Htr & _).
    destruct (Z.ltb_spec 0 interval) as [Hpos|Hneg]; cbn.
    + rewrite decide_True by done. split; [done|lia].
    + rewrite decide_False by lia. by split.
Qed.

Lemma loop_has_window_mono (a a' : Analysis.t) (t : string * Z) :
  (forall k, is_Some (Analysis.points a !! k) ->
             is_Some (Analysis.points a' !! k)) ->
  (forall k i, is_Some (Analysis.window k i a) ->
               is_Some (Analysis.window k i a')) ->
  loop_has_window a t -> loop_has_window a' t.
Proof. intros Hp Hw (Hi & Ht & Htw). repeat split; auto. Qed.

Lemma perform_keeps_loops (c : call) (a : Analysis.t) :
  Forall (loop_has_window a) (Analysis.taskRunner a)
  /\ NoDup (Analysis.taskRunner a) ->
  let a' := state_of (perform c a) in
  Forall (loop_has_window a') (Analysis.taskRunner a')
  /\ NoDup (Analysis.taskRunner a').
Proof.
  intros [Hall Hnd]. cbv zeta.
  assert (Hthrough : forall k body,
            let a' := state_of (Analysis.through_point k body a) in
            Forall (loop_has_window a') (Analysis.taskRunner a')
            /\ NoDup (Analysis.taskRunner a')).
  { intros k body. cbv zeta.
    pose proof (through_point_preserves k body a) as (Ht & Hrp & Hp).
    rewrite Ht. split; [|done].
    eapply Forall_impl; [exact Hall|]. intros t.
    apply loop_has_window_mono; [done|].
    intros k' i. unfold Analysis.window. by rewrite Hrp. }
  destruct c as [key interval|key|key|key|key cost|key interval];
    cbn [perform]; try apply Hthrough.
  - pose proof (AddRecentCount_preserves a key interval)
      as (Hp & _ & Hw & Hnew).
    pose proof (AddRecentCount_tasks a key interval) as [Ht _].
    cbv zeta in *. rewrite Ht.
    assert (Hmono : forall t, loop_has_window a t ->
              loop_has_window
                (state_of (Analysis.AddRecentCount key interval a)) t).
    { intros t. apply loop_has_window_mono.
      - intros k [p Hk]. rewrite (Hp k p Hk). by eexists.
      - intros k i [r Hk]. rewrite (Hw k i r Hk). by eexists. }
    case_decide as Hcase; [|split; [by eapply Forall_impl|done]].
    destruct Hcase as [Hnone Hpos]. split.
    + apply Forall_app. split; [by eapply Forall_impl|].
      apply Forall_singleton. split; [done|]. cbn [fst snd].
      destruct (Hnew key interval Hnone) as [Habs|(_ & _ & Hi & Hsome)].
      * exfalso.
        destruct (AddRecentCount_new a key interval ltac:(lia) Hnone)
          as (a1 & Hadd & _ & _ & _ & Hrp & _).
        rewrite Hadd in Habs.
        destruct (Z.ltb_spec 0 interval); [|lia]. cbn in Habs.
        unfold Analysis.window in Habs. cbn in Habs.
        by rewrite Hrp, lookup_insert_eq in Habs.
      * split; [|by eexists].
        destruct (Analysis.points a !! key) as [p|] eqn:Hk.
        -- rewrite (Hp key p Hk). by eexists.
        -- destruct (AddRecentCount_new a key interval Hi Hnone)
             as (a1 & Hadd & _ & Hp1 & _).
           rewrite Hadd. destruct (0 <? interval); cbn; rewrite Hp1;
             by eexists.
    + apply NoDup_app. split; [done|]. split; [|apply NoDup_singleton].
      intros t Ht' Hin. apply list_elem_of_singleton in Hin as ->.
      rewrite Forall_forall in Hall.
      destruct (Hall _ Ht') as (_ & _ & [r Hr]). cbn in Hr. congruence.
  - pose proof (tick_preserves a key interval) as (Ht & Hp & Hw & _).
    cbv zeta in *. rewrite Ht. split; [|done].
    eapply Forall_impl; [exact Hall|]. intros t.
    by apply loop_has_window_mono.
Qed.

(** ** Invariants of the registries reached by calls *)

(** A property that every call which returns keeps holds after every
    program of calls which returns. *)
Lemma returned_calls_ind (P : Analysis.t -> Prop) :
  (forall c a a', P a -> perform c a = Ret tt a' -> P a') ->
  forall cs a a', P a -> perform_all cs a = Ret tt a' -> P a'.
Proof.
  intros Hstep cs. induction cs as [|c cs IH]; intros a a' Ha Hrun.
  - cbn in Hrun. unfold ret in Hrun. by inversion Hrun; subst.
  - cbn in Hrun. unfold bind in Hrun.
    destruct (perform c a) as [[] a1|a1] eqn:Hc; [|done].
    eapply IH; [|exact Hrun]. by eapply Hstep.
Qed.

Lemma perform_keeps_windows_launched (c : call) (a a' : Analysis.t) :
  (forall k i, is_Some (Analysis.window k i a) ->
               (k, i) ∈ Analysis.taskRunner a) ->
  perform c a = Ret tt a' ->
  forall k i, is_Some (Analysis.window k i a') ->
              (k, i) ∈ Analysis.taskRunner a'.
Proof.
  intros Ha Hc.
  assert (Hstate : a' = state_of (perform c a)) by (by rewrite Hc).
  assert (Hret : returned (perform c a) = true) by (by rewrite Hc).
  clear Hc. subst a'.
  destruct c as [key interval|key|key|key|key cost|key interval];
    cbn [perform] in *;
    unfold Analysis.Request, Analysis.Reject, Analysis.Failure,
      Analysis.Response in *;
    try (intros k i;
         match goal with
         | |- context [Analysis.through_point ?key ?body a] =>
             pose proof (through_point_preserves key body a) as (Ht & Hrp & _)
         end;
         cbv zeta in *; unfold Analysis.window in *; rewrite Ht, Hrp;
         apply Ha).
  - pose proof (AddRecentCount_preserves a key interval) as (_ & _ & _ & Hnew).
    pose proof (AddRecentCount_tasks a key interval) as [Ht Hpos].
    cbv zeta in *. intros k i [r Hk]. rewrite Ht.
    destruct (Analysis.window k i a) as [r0|] eqn:Hw.
    + assert (Hin : (k, i) ∈ Analysis.taskRunner a) by (apply Ha; by eexists).
      case_decide; [|done]. apply elem_of_app. by left.
    + destruct (Hnew k i Hw) as [Habs|(-> & -> & Hi & _)]; [congruence|].
      specialize (Hpos Hret Hw).
      rewrite decide_True by (split; [done|lia]).
      apply elem_of_app. right. by apply list_elem_of_singleton.
  - pose proof (tick_preserves a key interval) as (Ht & _ & _ & Hw).
    cbv zeta in *. intros k i [r' Hk]. rewrite Ht.
    destruct (Hw k i r' Hk) as (r & Hr & _). apply Ha. by eexists.
Qed.

(** X8.  Loops and windows go together.  After any program of calls and
    ticks on a new registry, also one that ends in a panic, every loop
    that was launched has a positive interval, a point for its key and a
    window for its pair, and no pair has two loops; and when every call
    of the program has returned, every window of the registry has its
    loop. *)
Theorem loops_and_windows (cs : list call) :
  Forall (loop_has_window (after cs)) (Analysis.taskRunner (after cs))
  /\ NoDup (Analysis.taskRunner (after cs))
  /\ (returned (perform_all cs Analysis.NewAnalysis) = true ->
      forall key interval,
        is_Some (Analysis.window key interval (after cs)) ->
        (key, interval) ∈ Analysis.taskRunner (after cs)).
Proof.
  assert (Hloops : Forall (loop_has_window (after cs))
                     (Analysis.taskRunner (after cs))
                   /\ NoDup (Analysis.taskRunner (after cs))).
  { unfold after.
    apply (after_calls_ind (fun _ => True)
             (fun a => Forall (loop_has_window a) (Analysis.taskRunner a)
                       /\ NoDup (Analysis.taskRunner a))).
    - intros c a _. apply perform_keeps_loops.
    - by apply Forall_forall.
    - split; [apply Forall_nil_2|apply NoDup_nil_2]. }
  destruct Hloops as [Hall Hnd]. split; [done|]. split; [done|].
  unfold after. intros Hret.
  destruct (perform_all cs Analysis.NewAnalysis) as [[] a'|a'] eqn:Hrun;
    [|done].
  cbn [state_of].
  apply (returned_calls_ind
           (fun a => forall k i, is_Some (Analysis.window k i a) ->
                                 (k, i) ∈ Analysis.taskRunner a))
    with (cs := cs) (a := Analysis.NewAnalysis); [| |exact Hrun].
  - intros c a a1. apply perform_keeps_windows_launched.
  - intros k i [r Hr]. unfold Analysis.window in Hr. cbn in Hr.
    by rewrite lookup_empty in Hr.
Qed.

Lemma perform_keeps_interval (c : call) (a : Analysis.t) :
  windows_keep_interval a -> windows_keep_interval (state_of (perform c a)).
Proof.
  intros Ha.
  destruct c as [key interval|key|key|key|key cost|key interval];
    cbn [perform];
    unfold Analysis.Request, Analysis.Reject, Analysis.Failure,
      Analysis.Response;
    try (match goal with
         | |- context [Analysis.through_point ?key ?body a] =>
             pose proof (through_point_preserves key body a) as (_ & Hrp & _)
         end;
         cbv zeta in *; intros k i r; unfold Analysis.window;
         rewrite Hrp; apply Ha).
  - pose proof (AddRecentCount_preserves a key interval) as (_ & _ & Hw & Hnew).
    cbv zeta in *. intros k i r Hk.
    destruct (Analysis.window k i a) as [r0|] eqn:Hw0.
    + rewrite (Hw k i r0 Hw0) in Hk. inversion Hk; subst r0.
      by apply (Ha k i r).
    + destruct (Hnew k i Hw0) as [Habs|(-> & -> & Hi & Hsome)]; [congruence|].
      rewrite Hsome in Hk. inversion Hk; subst r. by split.
  - pose proof (tick_preserves a key interval) as (_ & _ & _ & Hw).
    cbv zeta in *. intros k i r' Hk.
    destruct (Hw k i r' Hk) as (r & Hr & Hpd). rewrite Hpd.
    by apply (Ha k i r).
Qed.

(** X9.  After any program of calls and ticks on a new registry, also one
    that ends in a panic, a window found under a key and an interval has
    that interval as its period, and the interval is not zero. *)
Theorem window_period_is_interval (cs : list call) (key : string)
        (interval : Z) (r : Recently.t) :
  Analysis.window key interval (after cs) = Some r ->
  Recently.period r = interval /\ interval <> 0.
Proof.
  revert key interval r. change (windows_keep_interval (after cs)).
  unfold after.
  apply (after_calls_ind (fun _ => True) windows_keep_interval).
  - intros c a _. apply perform_keeps_interval.
  - by apply Forall_forall.
  - intros k i r Hr. unfold Analysis.window in Hr. cbn in Hr.
    by rewrite lookup_empty in Hr.
Qed.

(** ** Counting on the hot path *)

Lemma set_requests_same (p : point.t) (v : Z) :
  v = point.requests p -> point.set_requests v p = p.
Proof. intros ->. by destruct p. Qed.

Lemma set_requests_twice (p : point.t) (v w : Z) :
  point.set_requests v (point.set_requests w p) = point.set_requests v p.
Proof. by destruct p. Qed.

Lemma Request_adds (key : string) (n : nat) :
  forall (a : Analysis.t) (p : point.t),
    Analysis.points a !! key = Some p ->
    int64_min <= point.requests p ->
    point.requests p + Z.of_nat n <= int64_max ->
    exists a',
      perform_all (replicate n (Request key)) a = Ret tt a'
      /\ only_point_changed key
           (point.set_requests (point.requests p + Z.of_nat n) p) a a'.
Proof.
  induction n as [|n IH]; intros a p Hp Hlo Hhi.
  - exists a. split; [done|]. split; [|by repeat split].
    rewrite Hp, set_requests_same; [done|]. cbn. lia.
  - cbn [replicate perform_all perform]. unfold bind, Analysis.Request.
    rewrite (through_point_some _ _ _ _ Hp).
    rewrite Incr_exact by lia.
    set (p1 := point.set_requests (point.requests p + 1) p).
    set (a1 := Analysis.set_points _ a).
    destruct (IH a1 p1) as (a' & Hrun & Hk & Ho & Hrp & Ht).
    { apply lookup_insert_eq. }
    { subst p1. destruct p as [rq ? ? ? ? ? ? ?].
      cbn [point.requests point.set_requests] in *. lia. }
    { subst p1. destruct p as [rq ? ? ? ? ? ? ?].
      cbn [point.requests point.set_requests] in *. lia. }
    exists a'. split; [exact Hrun|]. split; [|split; [|by split]].
    + rewrite Hk. subst p1. rewrite set_requests_twice. do 2 f_equal.
      destruct p as [rq ? ? ? ? ? ? ?].
      cbn [point.requests point.set_requests]. lia.
    + intros other Hne. rewrite (Ho other Hne). cbn.
      by rewrite lookup_insert_ne.
Qed.

(** X10.  A window counts the requests between a pair of ticks.  For a
    key with a point and a window whose next snapshot goes to [prev] and
    whose period has a whole second: a tick, [n] calls of [Request] and a
    second tick all return (as long as the cumulative counter does not
    leave the [int64] range), the cumulative counter of the point has
    grown by [n], and [GetRecentlyRequestCount] returns [n]. *)
Theorem window_counts_requests_between_ticks (a : Analysis.t) (key : string)
        (interval : Z) (p : point.t) (r : Recently.t) (n : nat) :
  Analysis.points a !! key = Some p ->
  Analysis.window key interval a = Some r ->
  Recently.dumpCurr r = false ->
  Recently.whole_seconds r <> 0 ->
  0 <= point.requests p ->
  point.requests p + Z.of_nat n <= int64_max ->
  exists a' p',
    perform_all ([Tick key interval] ++ replicate n (Request key)
                 ++ [Tick key interval]) a = Ret tt a'
    /\ Analysis.points a' !! key = Some p'
    /\ point.requests p' = point.requests p + Z.of_nat n
    /\ Analysis.GetRecentlyRequestCount key interval a' = Ret (Z.of_nat n) a'.
Proof.
  intros Hp Hw Hd Hs Hlo Hhi.
  destruct (tick_found_ret a key interval p _ r _ Hp Hw
              (record_fills_prev r p Hd)) as (a1 & Ht1 & Hp1 & Hw1).
  set (p1 := (point.dump p (Recently.prev r)).1) in *.
  set (r1 := Recently.set_dumpCurr true _) in *.
  assert (Hrq1 : point.requests p1 = point.requests p)
    by (subst p1; by destruct p).
  destruct (Request_adds key n a1 p1 Hp1) as (a2 & Hrun & Hp2 & _ & Hrp2 & _);
    [unfold int64_min; lia|lia|].
  set (p2 := point.set_requests _ p1) in *.
  assert (Hw2 : Analysis.window key interval a2 = Some r1)
    by (unfold Analysis.window in *; by rewrite Hrp2).
  unfold Recently.whole_seconds in Hs.
  destruct (calc_returns
              (Recently.set_current (point.dump p2 (Recently.current r1)).2 r1)
              Hs)
    as (r2 & Hcalc & _ & _ & _ & Hdc & Hrq & _).
  assert (Hrec : Recently.record (r1, p2)
                 = Ret tt (Recently.set_dumpCurr (negb (Recently.dumpCurr r2)) r2,
                           (point.dump p2 (Recently.current r1)).1)).
  { unfold Recently.record. change (Recently.dumpCurr r1) with true. cbv iota.
    destruct (point.dump p2 (Recently.current r1)) as [p2' tgt] eqn:Hdump.
    cbn [fst snd] in Hcalc. by rewrite Hcalc. }
  destruct (tick_found_ret a2 key interval p2 _ r1 _ Hp2 Hw2 Hrec)
    as (a3 & Ht3 & Hp3 & Hw3).
  exists a3, (point.dump p2 (Recently.current r1)).1.
  split; [|split; [exact Hp3|split]].
  - cbn [app perform_all perform]. unfold bind at 1. rewrite Ht1.
    rewrite (perform_all_app _ _ _ _ Hrun).
    cbn [perform_all perform]. unfold bind. by rewrite Ht3.
  - rewrite <- Hrq1. subst p2. by destruct p1.
  - unfold Analysis.GetRecentlyRequestCount.
    rewrite (read_window_some _ _ _ _ _ Hw3).
    cbn [Recently.requests Recently.set_dumpCurr]. rewrite Hrq.
    f_equal.
    assert (Hcur : point.requests
                     (Recently.current
                        (Recently.set_current
                           (point.dump p2 (Recently.current r1)).2 r1))
                   = point.requests p + Z.of_nat n)
      by (rewrite <- Hrq1; subst p2; by destruct p1).
    assert (Hprev : point.requests
                      (Recently.prev
                         (Recently.set_current
                            (point.dump p2 (Recently.current r1)).2 r1))
                    = point.requests p)
      by (subst r1; by destruct p).
    rewrite Hcur, Hprev, delta_exact; lia.
Qed.

Lemma Failure_adds (key : string) (n : nat) :
  forall (a : Analysis.t) (p : point.t),
    Analysis.points a !! key = Some p ->
    int64_min <= point.continuousFailure p ->
    point.continuousFailure p + Z.of_nat n <= int64_max ->
    exists a' p',
      perform_all (replicate n (Failure key)) a = Ret tt a'
      /\ Analysis.points a' !! key = Some p'
      /\ point.continuousFailure p'
         = point.continuousFailure p + Z.of_nat n.
Proof.
  induction n as [|n IH]; intros a p Hp Hclo Hchi.
  - exists a, p. repeat split; [done|cbn; lia].
  - cbn [replicate perform_all perform]. unfold bind, Analysis.Failure.
    rewrite (through_point_some _ _ _ _ Hp).
    set (p1 := point.set_continuousFailure _ _).
    set (a1 := Analysis.set_points _ a).
    assert (Hc1 : point.continuousFailure p1 = point.continuousFailure p + 1).
    { subst p1. destruct p as [? ? fl ? cf ? ? ?].
      cbn [point.failure point.set_failure point.set_continuousFailure
           point.continuousFailure] in *.
      apply Incr_exact. lia. }
    destruct (IH a1 p1) as (a' & p' & Hrun & Hp' & Hc);
      [apply lookup_insert_eq|lia..|].
    exists a', p'. split; [exact Hrun|]. split; [exact Hp'|]. lia.
Qed.

(** X11.  The streak counts the failures since the last success.  For a
    key whose point exists, after a success and then [n] failures, with
    [n] no more than the largest [int64], every call has returned and
    [GetContinuousFailureCount] returns [n]. *)
Theorem streak_counts_failures_since_success (a : Analysis.t) (key : string)
        (cost : Z) (p : point.t) (n : nat) :
  Analysis.points a !! key = Some p ->
  Z.of_nat n <= int64_max ->
  exists a',
    perform_all (Response key cost :: replicate n (Failure key)) a = Ret tt a'
    /\ Analysis.GetContinuousFailureCount key a' = Ret (Z.of_nat n) a'.
Proof.
  intros Hp Hn.
  destruct (Response_resets_streak a key cost p Hp)
    as (p1 & a1 & Hr & (Hp1 & _) & _ & _ & Hcf).
  destruct (Failure_adds key n a1 p1 Hp1)
    as (a' & p' & Hrun & Hp' & Hc).
  - rewrite Hcf. unfold int64_min. lia.
  - rewrite Hcf. lia.
  - exists a'. split.
    + cbn [perform_all perform]. unfold bind. by rewrite Hr.
    + rewrite (streak_read _ _ _ Hp'), Hc, Hcf. f_equal.
Qed.

(** ** Latency extremes *)

Lemma Response_extremes (a : Analysis.t) (key : string) (cost : Z)
      (p : point.t) :
  Analysis.points a !! key = Some p ->
  exists a' p',
    Analysis.Response key cost a = Ret tt a'
    /\ Analysis.points a' !! key = Some p'
    /\ point.max p' = (if point.max p <? cost then cost else point.max p)
    /\ point.min p'
       = (if (point.min p =? 0) || (point.min p >? cost)
          then cost else point.min p).
Proof.
  intros Hp. unfold Analysis.Response.
  rewrite (through_point_some _ _ _ _ Hp).
  eexists _, _. split; [reflexivity|]. split; [apply lookup_insert_eq|].
  destruct p as [rq rj fl su cf co mx mn]. cbn.
  destruct (mx <? cost); cbn; by destruct ((mn =? 0) || (mn >? cost)).
Qed.

Lemma extremes_of_snoc (seen : list Z) (c : Z) (p p' : point.t) :
  Forall (fun c => 0 < c) seen ->
  0 < c ->
  extremes_of seen p ->
  point.max p' = (if point.max p <? c then c else point.max p) ->
  point.min p'
  = (if (point.min p =? 0) || (point.min p >? c) then c else point.min p) ->
  extremes_of (seen ++ [c]) p'.
Proof.
  intros Hpos Hc Hinv Hmax Hmin. destruct seen as [|s l].
  - destruct Hinv as [HM Hm]. rewrite HM in Hmax. rewrite Hm in Hmin.
    destruct (Z.ltb_spec 0 c); [|lia]. cbn in Hmin, Hmax |- *.
    rewrite Hmax, Hmin. repeat split; try apply list_elem_of_here;
      by apply Forall_singleton.
  - destruct Hinv as [[HMin HMall] [Hmin' Hmall]].
    assert (Hmpos : 0 < point.min p)
      by (rewrite Forall_forall in Hpos; by apply Hpos).
    destruct (Z.eqb_spec (point.min p) 0) as [|_]; [lia|].
    cbn [orb] in Hmin.
    change ((s :: l) ++ [c]) with (s :: (l ++ [c])).
    change (s :: (l ++ [c])) with ((s :: l) ++ [c]).
    unfold extremes_of. change ((s :: l) ++ [c]) with (s :: (l ++ [c])).
    cbv iota. change (s :: (l ++ [c])) with ((s :: l) ++ [c]).
    rewrite !elem_of_app, !Forall_app, !Forall_singleton,
      !list_elem_of_singleton, Hmax, Hmin.
    destruct (Z.ltb_spec (point.max p) c);
      destruct (Z.gtb_spec (point.min p) c);
      repeat split; auto; try lia;
      first [ (eapply Forall_impl; [exact HMall|]); cbn; intros; lia
            | (eapply Forall_impl; [exact Hmall|]); cbn; intros; lia ].
Qed.

Lemma responses_extremes (key : string) (costs : list Z) :
  forall (seen : list Z) (a : Analysis.t) (p : point.t),
    Analysis.points a !! key = Some p ->
    Forall (fun c => 0 < c) seen ->
    Forall (fun c => 0 < c) costs ->
    extremes_of seen p ->
    exists a' p',
      perform_all (Response key <$> costs) a = Ret tt a'
      /\ Analysis.points a' !! key = Some p'
      /\ extremes_of (seen ++ costs) p'.
Proof.
  induction costs as [|c costs IH]; intros seen a p Hp Hseen Hcosts Hinv.
  - exists a, p. rewrite app_nil_r. by repeat split.
  - inversion_clear Hcosts as [|? ? Hc Hcosts'].
    destruct (Response_extremes a key c p Hp)
      as (a1 & p1 & Hr & Hp1 & Hmax & Hmin).
    destruct (IH (seen ++ [c]) a1 p1 Hp1) as (a' & p' & Hrun & Hp' & Hinv').
    + apply Forall_app. split; [done|by apply Forall_singleton].
    + done.
    + by eapply extremes_of_snoc.
    + exists a', p'. split; [|split; [done|]].
      * cbn [fmap list_fmap perform_all perform]. unfold bind.
        by rewrite Hr.
      * by rewrite <- app_assoc in Hinv'.
Qed.

(** X12.  Between two snapshots the point tracks the extremes of the
    latencies recorded.  For a key whose point has max and min 0 (a new
    point, or one just snapshotted), after the successes of a list of
    positive latencies every call has returned, and max and min of the
    point are the largest and the smallest latency of the list (both 0
    for the empty list). *)
Theorem responses_track_extremes (a : Analysis.t) (key : string)
        (costs : list Z) (p : point.t) :
  Analysis.points a !! key = Some p ->
  point.max p = 0 ->
  point.min p = 0 ->
  Forall (fun c => 0 < c) costs ->
  exists a' p',
    perform_all (Response key <$> costs) a = Ret tt a'
    /\ Analysis.points a' !! key = Some p'
    /\ extremes_of costs p'.
Proof.
  intros Hp Hmax Hmin Hcosts.
  destruct (responses_extremes key costs [] a p Hp) as (a' & p' & H);
    [by apply Forall_nil|done|by split|].
  by exists a', p'.
Qed.

(** ** What a registration leaves of the reads *)

Lemma read_window_value (a : Analysis.t) (server : string) (interval : Z)
      (field : Recently.t -> Z) :
  value_of (Analysis.read_window server interval field a)
  = Some (if Analysis.window server interval a is Some r then field r else 0).
Proof.
  destruct (Analysis.window server interval a) as [r|] eqn:Hw.
  - by rewrite (read_window_some _ _ _ _ _ Hw).
  - by rewrite (read_window_none _ _ _ _ Hw).
Qed.

Lemma AddRecentCount_keeps_field (a : Analysis.t) (key server : string)
      (interval i : Z) (field : Recently.t -> Z) :
  field (Recently.newRecently interval) = 0 ->
  value_of (Analysis.read_window server i field
              (state_of (Analysis.AddRecentCount key interval a)))
  = value_of (Analysis.read_window server i field a).
Proof.
  intros Hzero. rewrite !read_window_value.
  pose proof (AddRecentCount_preserves a key interval) as (_ & _ & Hw & Hnew).
  cbv zeta in *.
  destruct (Analysis.window server i a) as [r|] eqn:Hr.
  - by rewrite (Hw _ _ _ Hr).
  - destruct (Hnew _ _ Hr) as [->|(_ & _ & _ & ->)]; [done|].
    by rewrite Hzero.
Qed.

(** X13.  A registration changes no value that a reader returns.  For
    every registry, every pair registered and every pair read (also the
    pair being registered), the state [AddRecentCount] leaves, returned or
    not, gives each of the eight readers of a window and
    [GetContinuousFailureCount] the value it gave before: the counters of
    an existing point are not reset, existing windows are not replaced, and
    a new window and a new point read 0 as a missing one does. *)
Theorem AddRecentCount_keeps_reads (a : Analysis.t) (key server : string)
        (interval i : Z) :
  let a' := state_of (Analysis.AddRecentCount key interval a) in
  value_of (Analysis.GetRecentlyRequestCount server i a')
  = value_of (Analysis.GetRecentlyRequestCount server i a)
  /\ value_of (Analysis.GetRecentlyRequestSuccessedCount server i a')
     = value_of (Analysis.GetRecentlyRequestSuccessedCount server i a)
  /\ value_of (Analysis.GetRecentlyRequestFailureCount server i a')
     = value_of (Analysis.GetRecentlyRequestFailureCount server i a)
  /\ value_of (Analysis.GetRecentlyRejectCount server i a')
     = value_of (Analysis.GetRecentlyRejectCount server i a)
  /\ value_of (Analysis.GetRecentlyMax server i a')
     = value_of (Analysis.GetRecentlyMax server i a)
  /\ value_of (Analysis.GetRecentlyMin server i a')
     = value_of (Analysis.GetRecentlyMin server i a)
  /\ value_of (Analysis.GetRecentlyAvg server i a')
     = value_of (Analysis.GetRecentlyAvg server i a)
  /\ value_of (Analysis.GetQPS server i a')
     = value_of (Analysis.GetQPS server i a)
  /\ value_of (Analysis.GetContinuousFailureCount server a')
     = value_of (Analysis.GetContinuousFailureCount server a).
Proof.
  cbv zeta.
  unfold Analysis.GetRecentlyRequestCount,
    Analysis.GetRecentlyRequestSuccessedCount,
    Analysis.GetRecentlyRequestFailureCount, Analysis.GetRecentlyRejectCount,
    Analysis.GetRecentlyMax, Analysis.GetRecentlyMin, Analysis.GetRecentlyAvg,
    Analysis.GetQPS.
  repeat (split; [by apply AddRecentCount_keeps_field|]).
  pose proof (AddRecentCount_preserves a key interval) as (Hp & Hnone & _).
  cbv zeta in *.
  destruct (Analysis.points a !! server) as [p|] eqn:Hs.
  - by rewrite (streak_read _ _ _ (Hp _ _ Hs)), (streak_read _ _ _ Hs).
  - unfold Analysis.GetContinuousFailureCount, bind, gets, ret. rewrite Hs.
    by destruct (Hnone _ Hs) as [->|(_ & ->)].
Qed.

(** ** The loop after its ticker is stopped *)

Lemma stopped_loop_is_idle (key : string) (interval : Z)
      (es : list loop.event) :
  forall s,
    loop.timer_running s = false ->
    loop.timer_C s = false ->
    loop.registry (state_of (loop.run key interval es s)) = loop.registry s.
Proof.
  induction es as [|e es IH]; intros s Hrun Hc; [done|].
  destruct e as [| |c]; cbn [loop.run].
  - by rewrite IH.
  - rewrite Hrun. by apply IH.
  - destruct c; unfold loop.ready.
    + destruct (loop.ctx_done s) eqn:Hd; [|by apply IH].
      cbn [loop.body]. by rewrite IH.
    + rewrite Hc. by apply IH.
Qed.

(** X14.  Once the ticker of a loop is stopped, the loop records at most
    once more.  From a state whose ticker is not running, whatever
    cancellations, firings and iterations follow, the registry is in the
    end either as it was, or, when a tick was still waiting in the
    channel, as one tick of the window leaves it. *)
Theorem stopped_loop_records_at_most_once (key : string) (interval : Z)
        (es : list loop.event) (s : loop.t) :
  loop.timer_running s = false ->
  let a' := loop.registry (state_of (loop.run key interval es s)) in
  a' = loop.registry s
  \/ (loop.timer_C s = true
      /\ a' = state_of (Analysis.tick key interval (loop.registry s))).
Proof.
  cbv zeta. revert s. induction es as [|e es IH]; intros s Hrun; [by left|].
  destruct e as [| |c]; cbn [loop.run].
  - by destruct (IH (loop.mk (loop.registry s) true (loop.timer_running s)
                       (loop.timer_C s)) Hrun) as [?|[? ?]]; [left|right].
  - rewrite Hrun. by apply IH.
  - destruct c; unfold loop.ready.
    + destruct (loop.ctx_done s) eqn:Hd; [|by apply IH].
      cbn [loop.body].
      by destruct (IH (loop.mk (loop.registry s) (loop.ctx_done s) false
                         (loop.timer_C s)) eq_refl) as [?|[? ?]];
        [left|right].
    + destruct (loop.timer_C s) eqn:Hc;
        [|left; by apply stopped_loop_is_idle].
      right. split; [done|]. cbn [loop.body].
      destruct (Analysis.tick key interval (loop.registry s)) as [[] a1|a1];
        [|done].
      by rewrite stopped_loop_is_idle.
Qed.

(** ** Rates and conversions *)

(** The average and the rate that [calc] stores when the period has a whole
    second: the division for the rate needs no wrap-around. *)
Lemma calc_rates (r : Recently.t) :
  Recently.whole_seconds r <> 0 ->
  exists r',
    Recently.calc r = Ret tt r'
    /\ Recently.avg r'
       = (if Recently.requests r' =? 0 then 0
          else Z.quot (Z.quot (Z.quot
                 (sub64 (point.costs (Recently.current r))
                        (point.costs (Recently.prev r))) 1000) 1000)
                 (Recently.requests r'))
    /\ Recently.qps r'
       = Z.quot (Z.min (Recently.requests r') (Recently.successed r'))
                (Recently.whole_seconds r).
Proof.
  intros Hs. unfold Recently.calc. calc_cbn.
  set (rq := Recently.delta (point.requests _) _).
  set (su := Recently.delta (point.successed _) _).
  assert (Hrq : 0 <= rq <= int64_max) by apply delta_range.
  assert (Hsu : 0 <= su <= int64_max) by apply delta_range.
  destruct (rq =? 0) eqn:Hz; calc_cbn; whole_seconds_of r;
    destruct (Z.gtb_spec su rq) as [Hgt|Hle];
    rewrite div64_nonneg by done;
    (eexists; split; [reflexivity|]); calc_cbn; fold rq; rewrite Hz;
    (split; [reflexivity|]); unfold int_of_int64; f_equal; lia.
Qed.

(** X15.  The rate lies between 0 and the smaller population.  For a
    window whose period has at least one whole second, recomputation
    returns with a QPS that is not negative and exceeds neither the
    request delta nor the success delta, and that is the floor of the
    smaller delta over the whole seconds: the part of the period beyond
    its whole seconds does not count. *)
Theorem calc_qps_bounds (r : Recently.t) :
  0 < Recently.whole_seconds r ->
  exists r',
    Recently.calc r = Ret tt r'
    /\ 0 <= Recently.qps r' <= Recently.requests r'
    /\ Recently.qps r' <= Recently.successed r'
    /\ Recently.qps r' * Recently.whole_seconds r
       <= Z.min (Recently.requests r') (Recently.successed r')
       < (Recently.qps r' + 1) * Recently.whole_seconds r.
Proof.
  intros Hs.
  destruct (calc_rates r ltac:(lia)) as (r' & Hcalc & _ & Hq).
  pose proof (calc_derived_nonneg r) as (Hrq & Hsu).
  rewrite Hcalc in Hrq, Hsu. cbn [state_of] in Hrq, Hsu.
  exists r'. split; [exact Hcalc|]. rewrite Hq.
  set (m := Z.min (Recently.requests r') (Recently.successed r')).
  set (w := Recently.whole_seconds r) in *.
  assert (Hm : 0 <= m) by (subst m; lia).
  rewrite Z.quot_div_nonneg by lia.
  pose proof (Z.div_pos m w Hm Hs).
  pose proof (Z.mul_div_le m w Hs).
  pose proof (Z.mul_succ_div_gt m w Hs).
  assert (m / w <= m) by (apply Z.div_le_upper_bound; nia).
  subst m. repeat split; lia.
Qed.

(** X16.  Latencies are read in whole milliseconds.  Whether [calc]
    returns or not, the maximum it stores is the extreme of the [current]
    snapshot in nanoseconds divided by 1000000 and rounded down when that
    extreme is not negative, so an extreme under one millisecond reads 0;
    a negative extreme reads 0 too.  The same holds of the minimum. *)
Theorem calc_extremes_in_milliseconds (r : Recently.t) :
  let r' := state_of (Recently.calc r) in
  (0 <= point.max (Recently.current r) ->
   Recently.max r' = point.max (Recently.current r) / 1000000)
  /\ (point.max (Recently.current r) < 1000000 -> Recently.max r' = 0)
  /\ (0 <= point.min (Recently.current r) ->
      Recently.min r' = point.min (Recently.current r) / 1000000)
  /\ (point.min (Recently.current r) < 1000000 -> Recently.min r' = 0).
Proof.
  assert (Hms : forall v,
             (0 <= v -> Recently.to_ms v = v / 1000000)
             /\ (v < 1000000 -> Recently.to_ms v = 0)).
  { intros v. unfold Recently.to_ms.
    destruct (Z.ltb_spec v 0) as [Hneg|Hpos]; [split; [lia|done]|].
    rewrite (Z.quot_div_nonneg v 1000) by lia.
    rewrite Z.quot_div_nonneg by (try apply Z.div_pos; lia).
    rewrite Z.div_div by lia. change (1000 * 1000) with 1000000.
    split; [done|]. intros Hlt. by apply Z.div_small. }
  assert (Hfields : let r' := state_of (Recently.calc r) in
            Recently.max r' = Recently.to_ms (point.max (Recently.current r))
            /\ Recently.min r'
               = Recently.to_ms (point.min (Recently.current r)))
    by (cbv zeta; calc_paths r; by split).
  cbv zeta in *. destruct Hfields as [-> ->].
  destruct (Hms (point.max (Recently.current r))) as [? ?].
  destruct (Hms (point.min (Recently.current r))) as [? ?].
  by repeat split.
Qed.

Lemma delta_same (v : Z) : Recently.delta v v = 0.
Proof. unfold Recently.delta, sub64. by rewrite Z.sub_diag. Qed.

(** X17.  Two ticks of a window with nothing between them report nothing.
    For a key with a point and a window whose next snapshot goes to
    [prev] and whose period has a whole second, whatever the counters of
    the point are (so whatever traffic came before the first of the two
    ticks), both ticks return and afterwards each of the eight readers of
    the window returns 0: the traffic that precedes a snapshot into
    [prev] is in neither of the two snapshots' difference. *)
Theorem back_to_back_ticks_report_nothing (a : Analysis.t) (key : string)
        (interval : Z) (p : point.t) (r : Recently.t) :
  Analysis.points a !! key = Some p ->
  Analysis.window key interval a = Some r ->
  Recently.dumpCurr r = false ->
  Recently.whole_seconds r <> 0 ->
  exists a',
    (Analysis.tick key interval >> Analysis.tick key interval) a = Ret tt a'
    /\ Analysis.GetRecentlyRequestCount key interval a' = Ret 0 a'
    /\ Analysis.GetRecentlyRequestSuccessedCount key interval a' = Ret 0 a'
    /\ Analysis.GetRecentlyRequestFailureCount key interval a' = Ret 0 a'
    /\ Analysis.GetRecentlyRejectCount key interval a' = Ret 0 a'
    /\ Analysis.GetRecentlyMax key interval a' = Ret 0 a'
    /\ Analysis.GetRecentlyMin key interval a' = Ret 0 a'
    /\ Analysis.GetRecentlyAvg key interval a' = Ret 0 a'
    /\ Analysis.GetQPS key interval a' = Ret 0 a'.
Proof.
  intros Hp Hw Hd Hs.
  destruct (tick_found_ret a key interval p _ r _ Hp Hw
              (record_fills_prev r p Hd)) as (a1 & Ht1 & Hp1 & Hw1).
  set (p1 := (point.dump p (Recently.prev r)).1) in *.
  set (r1 := Recently.set_dumpCurr true _) in *.
  set (R := Recently.set_current (point.dump p1 (Recently.current r1)).2 r1).
  assert (HsR : Recently.whole_seconds R <> 0) by exact Hs.
  destruct (calc_returns R HsR)
    as (r2 & Hcalc & _ & _ & _ & _ & Hrq & Hsu & Hfl & Hrj & Hmx & Hmn).
  destruct (calc_rates R HsR) as (r2' & Hcalc' & Havg & Hqps).
  rewrite Hcalc in Hcalc'. inversion Hcalc'; subst r2'. clear Hcalc'.
  assert (Hsame : point.requests (Recently.current R)
                  = point.requests (Recently.prev R)
                  /\ point.successed (Recently.current R)
                     = point.successed (Recently.prev R)
                  /\ point.failure (Recently.current R)
                     = point.failure (Recently.prev R)
                  /\ point.rejects (Recently.current R)
                     = point.rejects (Recently.prev R)
                  /\ point.max (Recently.current R) = 0
                  /\ point.min (Recently.current R) = 0)
    by (subst R r1 p1; by destruct p).
  destruct Hsame as (Erq & Esu & Efl & Erj & Emx & Emn).
  rewrite Erq, delta_same in Hrq. rewrite Esu, delta_same in Hsu.
  rewrite Efl, delta_same in Hfl. rewrite Erj, delta_same in Hrj.
  rewrite Emx in Hmx. rewrite Emn in Hmn.
  rewrite Hrq in Havg. rewrite Hrq, Hsu in Hqps.
  assert (Hrec : Recently.record (r1, p1)
                 = Ret tt (Recently.set_dumpCurr (negb (Recently.dumpCurr r2)) r2,
                           (point.dump p1 (Recently.current r1)).1)).
  { unfold Recently.record. change (Recently.dumpCurr r1) with true. cbv iota.
    destruct (point.dump p1 (Recently.current r1)) as [p1' tgt] eqn:Hdump.
    subst R. cbn [fst snd] in Hcalc. by rewrite Hcalc. }
  destruct (tick_found_ret a1 key interval p1 _ r1 _ Hp1 Hw1 Hrec)
    as (a2 & Ht2 & _ & Hw2).
  exists a2. split; [unfold bind; by rewrite Ht1|].
  unfold Analysis.GetRecentlyRequestCount,
    Analysis.GetRecentlyRequestSuccessedCount,
    Analysis.GetRecentlyRequestFailureCount, Analysis.GetRecentlyRejectCount,
    Analysis.GetRecentlyMax, Analysis.GetRecentlyMin, Analysis.GetRecentlyAvg,
    Analysis.GetQPS.
  rewrite !(read_window_some _ _ _ _ _ Hw2).
  cbn [Recently.requests Recently.successed Recently.failure Recently.rejects
       Recently.max Recently.min Recently.avg Recently.qps
       Recently.set_dumpCurr].
  rewrite Hrq, Hsu, Hfl, Hrj, Hmx, Hmn, Havg, Hqps.
  by repeat split.
Qed.

(** ** Calls that cannot panic *)

(** X18.  Ticks of windows of at least one second do not panic.  After
    any program of calls and ticks on a new registry, a tick for a key and
    an interval of one second or more returns, whether the pair has a
    window or not. *)
Theorem tick_returns_for_whole_second_windows (cs : list call) (key : string)
        (interval : Z) :
  time.Second <= interval ->
  returned (Analysis.tick key interval (after cs)) = true.
Proof.
  intros Hi.
  assert (Hinv : windows_keep_interval (after cs)).
  { unfold after.
    apply (after_calls_ind (fun _ => True) windows_keep_interval).
    - intros c a _. apply perform_keeps_interval.
    - by apply Forall_forall.
    - intros k i r Hr. unfold Analysis.window in Hr. cbn in Hr.
      by rewrite lookup_empty in Hr. }
  destruct (Analysis.points (after cs) !! key) as [p|] eqn:Hp;
    [|by rewrite tick_idle by (by left)].
  destruct (Analysis.window key interval (after cs)) as [r|] eqn:Hw;
    [|by rewrite tick_idle by (by right)].
  destruct (Hinv key interval r Hw) as [Hpd _].
  assert (Hs : Recently.whole_seconds r <> 0).
  { unfold Recently.whole_seconds. rewrite Hpd.
    assert (1 <= Z.quot interval time.Second); [|lia].
    apply Z.quot_le_lower_bound; unfold time.Second in *; lia. }
  destruct (Recently.dumpCurr r) eqn:Hd.
  - destruct (record_on_current r p Hd Hs) as (r' & Hrec & _).
    by destruct (tick_found_ret _ _ _ _ _ _ _ Hp Hw Hrec) as (a' & -> & _).
  - by destruct (tick_found_ret _ _ _ _ _ _ _ Hp Hw (record_fills_prev r p Hd))
      as (a' & -> & _).
Qed.

Lemma perform_keeps_points (c : call) (a : Analysis.t) (key : string) :
  is_Some (Analysis.points a !! key) ->
  is_Some (Analysis.points (state_of (perform c a)) !! key).
Proof.
  intros Hk.
  destruct c as [k interval|k|k|k|k cost|k interval]; cbn [perform];
    unfold Analysis.Request, Analysis.Reject, Analysis.Failure,
      Analysis.Response;
    try (match goal with
         | |- context [Analysis.through_point ?k ?body a] =>
             pose proof (through_point_preserves k body a) as (_ & _ & Hp)
         end; by apply Hp).
  - pose proof (AddRecentCount_preserves a k interval) as (Hp & _).
    destruct Hk as [p Hk]. cbv zeta in Hp. rewrite (Hp _ _ Hk). by eexists.
  - pose proof (tick_preserves a k interval) as (_ & Hp & _). by apply Hp.
Qed.

Lemma returned_app_l (cs1 cs2 : list call) (a : Analysis.t) :
  returned (perform_all (cs1 ++ cs2) a) = true ->
  returned (perform_all cs1 a) = true.
Proof.
  revert a. induction cs1 as [|c cs1 IH]; intros a H; [done|].
  cbn [app perform_all] in *. unfold bind in *.
  destruct (perform c a) as [[] a1|a1]; [by apply IH|done].
Qed.

(** X19.  A key registered once can be used on the hot path ever after.
    When a program of calls and ticks in which a key is registered with
    an interval other than zero has returned in full (no call of it
    panicked, so that no lock was left held), the key has a point in the
    registry the program leaves, whatever followed the registration, and
    each of [Request], [Reject], [Failure] and [Response] on the key
    returns. *)
Theorem registered_key_stays_usable (cs1 cs2 : list call) (key : string)
        (interval cost : Z) :
  returned (perform_all (cs1 ++ AddRecentCount key interval :: cs2)
                        Analysis.NewAnalysis) = true ->
  interval <> 0 ->
  let a := after (cs1 ++ AddRecentCount key interval :: cs2) in
  is_Some (Analysis.points a !! key)
  /\ returned (Analysis.Request key a) = true
  /\ returned (Analysis.Reject key a) = true
  /\ returned (Analysis.Failure key a) = true
  /\ returned (Analysis.Response key cost a) = true.
Proof.
  intros Hall Hi. cbv zeta.
  pose proof (returned_app_l _ _ _ Hall) as Hret.
  assert (Hk : is_Some (Analysis.points
                          (after (cs1 ++ AddRecentCount key interval :: cs2))
                        !! key)).
  { rewrite after_app by done. rewrite state_of_perform_all_cons.
    cbn [perform].
    assert (Hadd : is_Some (Analysis.points
                              (state_of (Analysis.AddRecentCount key interval
                                           (after cs1))) !! key)).
    { destruct (Analysis.window key interval (after cs1)) as [r|] eqn:Hw.
      - destruct (AddRecentCount_on_window _ _ _ _ Hi Hw) as (a' & -> & Hp & _).
        exact Hp.
      - destruct (AddRecentCount_new _ _ _ Hi Hw) as (a1 & -> & _ & Hp & _).
        destruct (0 <? interval); cbn; rewrite Hp; by eexists. }
    destruct (Analysis.AddRecentCount key interval (after cs1))
      as [[] a1|a1]; cbn [state_of] in *; [|done].
    apply (after_calls_ind (fun _ => True)
             (fun a => is_Some (Analysis.points a !! key)));
      [|by apply Forall_forall|done].
    intros c a _. apply perform_keeps_points. }
  split; [exact Hk|]. destruct Hk as [p Hp].
  unfold Analysis.Request, Analysis.Reject, Analysis.Failure,
    Analysis.Response.
  by rewrite !(through_point_some _ _ _ _ Hp).
Qed.

(** ** The further properties at concrete inputs *)

Lemma record_pair_measures_witness :
  exists r1 p1' r2 p2',
    Recently.record (Recently.newRecently time.Second, point.newPoint)
    = Ret tt (r1, p1')
    /\ Recently.record (r1, busy_point) = Ret tt (r2, p2')
    /\ Recently.requests r2 = Recently.delta 12 0
    /\ Recently.successed r2 = Recently.delta 9 0
    /\ Recently.failure r2 = Recently.delta 2 0
    /\ Recently.rejects r2 = Recently.delta 1 0
    /\ (0 <= 12 - 0 <= int64_max -> Recently.requests r2 = 12 - 0)
    /\ Recently.max r2 = Recently.to_ms 60000000
    /\ Recently.min r2 = Recently.to_ms 40000000
    /\ Recently.dumpCurr r2 = false.
Proof.
  apply (record_pair_measures (Recently.newRecently time.Second)
           point.newPoint busy_point).
  - reflexivity.
  - vm_compute. discriminate.
Defined.

Lemma tick_touches_one_window_witness :
  let a' := state_of (Analysis.tick "upstream-1" time.Second registered1) in
  Analysis.taskRunner a' = Analysis.taskRunner registered1
  /\ Analysis.points a' !! "upstream-2"
     = Analysis.points registered1 !! "upstream-2"
  /\ Analysis.window "upstream-1" (2 * time.Second) a'
     = Analysis.window "upstream-1" (2 * time.Second) registered1
  /\ Analysis.points a' !! "upstream-1"
     = Some (point.set_max 0 (point.set_min 0 point.newPoint))
  /\ state_of (Analysis.tick "upstream-2" time.Second registered1)
     = registered1.
Proof.
  destruct (tick_touches_one_window registered1 "upstream-1" time.Second)
    as (Ht & Hother & Hwin & Hkey & _).
  destruct (tick_touches_one_window registered1 "upstream-2" time.Second)
    as (_ & _ & _ & _ & Hidle).
  split; [exact Ht|]. split; [apply Hother; discriminate|].
  split; [apply Hwin; right; discriminate|].
  split; [apply Hkey; [vm_compute; reflexivity
                      |eexists; vm_compute; reflexivity]|].
  apply Hidle. left. vm_compute. reflexivity.
Defined.

Lemma tick_on_prev_keeps_reads_witness :
  exists a' r',
    Analysis.tick "upstream-1" time.Second registered1 = Ret tt a'
    /\ Analysis.window "upstream-1" time.Second a' = Some r'
    /\ Recently.dumpCurr r' = true
    /\ value_of (Analysis.GetRecentlyRequestCount "upstream-1" time.Second a')
       = value_of (Analysis.GetRecentlyRequestCount "upstream-1" time.Second
                     registered1)
    /\ value_of (Analysis.GetRecentlyRequestSuccessedCount "upstream-1"
                   time.Second a')
       = value_of (Analysis.GetRecentlyRequestSuccessedCount "upstream-1"
                     time.Second registered1)
    /\ value_of (Analysis.GetRecentlyRequestFailureCount "upstream-1"
                   time.Second a')
       = value_of (Analysis.GetRecentlyRequestFailureCount "upstream-1"
                     time.Second registered1)
    /\ value_of (Analysis.GetRecentlyRejectCount "upstream-1" time.Second a')
       = value_of (Analysis.GetRecentlyRejectCount "upstream-1" time.Second
                     registered1)
    /\ value_of (Analysis.GetRecentlyMax "upstream-1" time.Second a')
       = value_of (Analysis.GetRecentlyMax "upstream-1" time.Second registered1)
    /\ value_of (Analysis.GetRecentlyMin "upstream-1" time.Second a')
       = value_of (Analysis.GetRecentlyMin "upstream-1" time.Second registered1)
    /\ value_of (Analysis.GetRecentlyAvg "upstream-1" time.Second a')
       = value_of (Analysis.GetRecentlyAvg "upstream-1" time.Second registered1)
    /\ value_of (Analysis.GetQPS "upstream-1" time.Second a')
       = value_of (Analysis.GetQPS "upstream-1" time.Second registered1).
Proof.
  apply (tick_on_prev_keeps_reads registered1 "upstream-1" time.Second
           point.newPoint (Recently.newRecently time.Second));
    vm_compute; reflexivity.
Defined.

Lemma tick_after_tick_reads_zero_extremes_witness :
  exists a2,
    Analysis.tick "upstream-1" time.Second ticked1 = Ret tt a2
    /\ Analysis.GetRecentlyMax "upstream-1" time.Second a2 = Ret 0 a2
    /\ Analysis.GetRecentlyMin "upstream-1" time.Second a2 = Ret 0 a2.
Proof.
  apply (tick_after_tick_reads_zero_extremes registered1 ticked1 "upstream-1"
           time.Second time.Second point.newPoint
           (Recently.set_dumpCurr true (Recently.newRecently time.Second))).
  - vm_compute. reflexivity.
  - eexists. vm_compute. reflexivity.
  - vm_compute. reflexivity.
  - vm_compute. reflexivity.
  - reflexivity.
  - vm_compute. discriminate.
Defined.

Lemma loops_and_windows_witness :
  Forall (loop_has_window (after upstream1))
         (Analysis.taskRunner (after upstream1))
  /\ NoDup (Analysis.taskRunner (after upstream1))
  /\ ("upstream-1", time.Second) ∈ Analysis.taskRunner (after upstream1).
Proof.
  destruct (loops_and_windows upstream1) as (Hall & Hnd & Hwin).
  split; [exact Hall|]. split; [exact Hnd|]. apply Hwin.
  - vm_compute. reflexivity.
  - eexists. vm_compute. reflexivity.
Defined.

Lemma window_period_is_interval_witness :
  Recently.period (Recently.newRecently time.Second) = time.Second
  /\ time.Second <> 0.
Proof.
  apply (window_period_is_interval [AddRecentCount "upstream-1" time.Second]
           "upstream-1").
  vm_compute. reflexivity.
Defined.

Lemma window_counts_requests_between_ticks_witness :
  exists a' p',
    perform_all ([Tick "upstream-1" time.Second]
                 ++ replicate 3 (Request "upstream-1")
                 ++ [Tick "upstream-1" time.Second]) registered1 = Ret tt a'
    /\ Analysis.points a' !! "upstream-1" = Some p'
    /\ point.requests p' = 0 + Z.of_nat 3
    /\ Analysis.GetRecentlyRequestCount "upstream-1" time.Second a'
       = Ret (Z.of_nat 3) a'.
Proof.
  apply (window_counts_requests_between_ticks registered1 "upstream-1"
           time.Second point.newPoint (Recently.newRecently time.Second) 3).
  - vm_compute. reflexivity.
  - vm_compute. reflexivity.
  - reflexivity.
  - vm_compute. discriminate.
  - vm_compute. discriminate.
  - vm_compute. discriminate.
Defined.

Lemma streak_counts_failures_since_success_witness :
  exists a',
    perform_all (Response "upstream-1" 7
                 :: replicate 3 (Failure "upstream-1")) registered1
    = Ret tt a'
    /\ Analysis.GetContinuousFailureCount "upstream-1" a'
       = Ret (Z.of_nat 3) a'.
Proof.
  apply (streak_counts_failures_since_success registered1 "upstream-1" 7
           point.newPoint 3).
  - vm_compute. reflexivity.
  - vm_compute. discriminate.
Defined.

Lemma responses_track_extremes_witness :
  exists a' p',
    perform_all (Response "upstream-1" <$> [30; 50; 20]) registered1
    = Ret tt a'
    /\ Analysis.points a' !! "upstream-1" = Some p'
    /\ extremes_of [30; 50; 20] p'.
Proof.
  apply (responses_track_extremes registered1 "upstream-1" [30; 50; 20]
           point.newPoint).
  - vm_compute. reflexivity.
  - reflexivity.
  - reflexivity.
  - repeat constructor.
Defined.

Lemma stopped_loop_records_at_most_once_witness :
  let a' := loop.registry
              (state_of (loop.run "upstream-1" time.Second
                           [loop.Select loop.case_timer_C; loop.Fire;
                            loop.Select loop.case_timer_C] stopped1)) in
  a' = loop.registry stopped1
  \/ (loop.timer_C stopped1 = true
      /\ a' = state_of (Analysis.tick "upstream-1" time.Second
                          (loop.registry stopped1))).
Proof.
  apply (stopped_loop_records_at_most_once "upstream-1" time.Second
           [loop.Select loop.case_timer_C; loop.Fire;
            loop.Select loop.case_timer_C] stopped1).
  reflexivity.
Defined.

Lemma calc_qps_bounds_witness :
  exists r',
    Recently.calc (Recently.newRecently (2 * time.Second)) = Ret tt r'
    /\ 0 <= Recently.qps r' <= Recently.requests r'
    /\ Recently.qps r' <= Recently.successed r'
    /\ Recently.qps r' * 2
       <= Z.min (Recently.requests r') (Recently.successed r')
       < (Recently.qps r' + 1) * 2.
Proof.
  apply (calc_qps_bounds (Recently.newRecently (2 * time.Second))).
  vm_compute. reflexivity.
Defined.

Lemma calc_extremes_in_milliseconds_witness :
  let r' := state_of (Recently.calc
                        (Recently.set_current busy_point
                           (Recently.newRecently time.Second))) in
  Recently.max r' = 60000000 / 1000000
  /\ Recently.min r' = 40000000 / 1000000
  /\ Recently.max (state_of (Recently.calc (Recently.newRecently time.Second)))
     = 0.
Proof.
  destruct (calc_extremes_in_milliseconds
              (Recently.set_current busy_point
                 (Recently.newRecently time.Second)))
    as (Hmax & _ & Hmin & _).
  destruct (calc_extremes_in_milliseconds (Recently.newRecently time.Second))
    as (_ & Hzero & _).
  split; [apply Hmax; vm_compute; discriminate|].
  split; [apply Hmin; vm_compute; discriminate|].
  apply Hzero. vm_compute. reflexivity.
Defined.

Lemma back_to_back_ticks_report_nothing_witness :
  exists a',
    (Analysis.tick "upstream-1" time.Second
     >> Analysis.tick "upstream-1" time.Second) registered1 = Ret tt a'
    /\ Analysis.GetRecentlyRequestCount "upstream-1" time.Second a' = Ret 0 a'
    /\ Analysis.GetRecentlyRequestSuccessedCount "upstream-1" time.Second a'
       = Ret 0 a'
    /\ Analysis.GetRecentlyRequestFailureCount "upstream-1" time.Second a'
       = Ret 0 a'
    /\ Analysis.GetRecentlyRejectCount "upstream-1" time.Second a' = Ret 0 a'
    /\ Analysis.GetRecentlyMax "upstream-1" time.Second a' = Ret 0 a'
    /\ Analysis.GetRecentlyMin "upstream-1" time.Second a' = Ret 0 a'
    /\ Analysis.GetRecentlyAvg "upstream-1" time.Second a' = Ret 0 a'
    /\ Analysis.GetQPS "upstream-1" time.Second a' = Ret 0 a'.
Proof.
  apply (back_to_back_ticks_report_nothing registered1 "upstream-1"
           time.Second point.newPoint (Recently.newRecently time.Second)).
  - vm_compute. reflexivity.
  - vm_compute. reflexivity.
  - reflexivity.
  - vm_compute. discriminate.
Defined.

Lemma tick_returns_for_whole_second_windows_witness :
  returned (Analysis.tick "upstream-1" time.Second (after upstream1)) = true.
Proof.
  apply (tick_returns_for_whole_second_windows upstream1 "upstream-1"
           time.Second).
  vm_compute. discriminate.
Defined.

Lemma registered_key_stays_usable_witness :
  let a := after ([AddRecentCount "upstream-2" time.Second]
                  ++ AddRecentCount "upstream-1" time.Second
                     :: [Tick "upstream-1" time.Second;
                         Request "upstream-2";
                         Tick "upstream-1" time.Second]) in
  is_Some (Analysis.points a !! "upstream-1")
  /\ returned (Analysis.Request "upstream-1" a) = true
  /\ returned (Analysis.Reject "upstream-1" a) = true
  /\ returned (Analysis.Failure "upstream-1" a) = true
  /\ returned (Analysis.Response "upstream-1" 7 a) = true.
Proof.
  apply (registered_key_stays_usable
           [AddRecentCount "upstream-2" time.Second]
           [Tick "upstream-1" time.Second; Request "upstream-2";
            Tick "upstream-1" time.Second]
           "upstream-1" time.Second 7).
  - vm_compute. reflexivity.
  - vm_compute. discriminate.
Defined.
